(** * Fault-injection harness of the ECC memory controller (scripts/cxxrtl/sim.cpp)

    A shallow embedding of [main] and [clk] of [scripts/cxxrtl/sim.cpp], in
    the default build (the [VCD] macro undefined, so no waveform is sampled).

    - [size_t] and [unsigned long long] are 64-bit: a value is a [Z] in
      [0, 2^64) and every arithmetic result is reduced with [wrap].
    - The simulated design [top] (generated into [test.h]) and the C++
      random-number library are external: they enter as the interfaces
      [Design] and [Libstd].
    - An array access out of bounds, a shift by 64 or more and a Poisson
      distribution built with a mean that is not above zero are undefined
      in C++; the embedding returns [None] there. *)

From Stdlib Require Import ZArith Lia String Ascii.
From stdpp Require Import base tactics option list numbers strings pretty.

Local Open Scope Z_scope.

(** ** 64-bit unsigned arithmetic *)

Module Size.

Definition modulus : Z := 2 ^ 64.

(** Reduction of an arithmetic result to [size_t]. *)
Definition wrap (z : Z) : Z := z mod modulus.

(** [x++] on a [size_t]. *)
Definition incr (x : Z) : Z := wrap (x + 1).

(** [1ull << bit]; undefined when [bit] is not below the width. *)
Definition shl1 (bit : Z) : option Z :=
  if (0 <=? bit) && (bit <? 64) then Some (wrap (Z.shiftl 1 bit)) else None.

(** The value a [size_t] prints as under [%zd], which reads it as signed. *)
Definition signed (x : Z) : Z := if x <? 2 ^ 63 then x else x - modulus.

(** Number of set bits among the lowest [n]. *)
Fixpoint popcount_below (n : nat) (x : Z) : Z :=
  match n with
  | O => 0
  | S k => popcount_below k x + (if Z.testbit x (Z.of_nat k) then 1 else 0)
  end.

(** [std::__popcount] on a 64-bit value. *)
Definition popcount (x : Z) : Z := popcount_below 64 x.
#[global] Arguments popcount : simpl never.
#[global] Arguments modulus : simpl never.

(** [a[i]] on an array held as a list; [None] outside the array. *)
Definition nth_cell {A} (a : list A) (i : Z) : option A :=
  if 0 <=? i then a !! Z.to_nat i else None.

(** [a[i] = v]. *)
Definition set_cell {A} (a : list A) (i : Z) (v : A) : option (list A) :=
  match nth_cell a i with
  | Some _ => Some (<[Z.to_nat i := v]> a)
  | None => None
  end.

End Size.

(** ** The shadow error model: the statements of [main] on [flips_array] *)

Module Shadow.
Import Size.

(** [flips_array[cell] ^= (1ull << bit)] (line 116). *)
Definition flip (cell bit : Z) (flips_array : list Z) : option (list Z) :=
  match nth_cell flips_array cell, shl1 bit with
  | Some old, Some mask => set_cell flips_array cell (Z.lxor old mask)
  | _, _ => None
  end.

(** [flips_array[sram_addr] = 0] (line 163). *)
Definition clear (sram_addr : Z) (flips_array : list Z) : option (list Z) :=
  set_cell flips_array sram_addr 0.

(** [std::__popcount(flips_array[sram_addr])] (line 151). *)
Definition popcnt (sram_addr : Z) (flips_array : list Z) : option Z :=
  popcount <$> nth_cell flips_array sram_addr.

(** The shadow bit of a cell. *)
Definition bit_at (cell bit : Z) (flips_array : list Z) : option bool :=
  (fun v => Z.testbit v bit) <$> nth_cell flips_array cell.

(** The loop at lines 79-81: every entry zero. *)
Definition init (num_memory_cells : Z) : list Z :=
  replicate (Z.to_nat num_memory_cells) 0.

(** What a run of injections does to the shadow: the flips at the drawn
    positions, in order. *)
Fixpoint flip_all (ops : list (Z * Z)) (flips_array : list Z)
  : option (list Z) :=
  match ops with
  | [] => Some flips_array
  | (cell, bit) :: ops => fa ← flip cell bit flips_array; flip_all ops fa
  end.

(** The reading of the invariant that injections only ever set bits: after
    a clear of a cell and any injections, one more injection does not lower
    the popcount of that cell. *)
Definition injections_never_lower_popcount : Prop :=
  forall (c : Z) (ops : list (Z * Z)) (cell bit : Z) (fa fa0 fa1 fa2 : list Z)
         (p1 p2 : Z),
    clear c fa = Some fa0 ->
    flip_all ops fa0 = Some fa1 ->
    flip cell bit fa1 = Some fa2 ->
    popcnt c fa1 = Some p1 -> popcnt c fa2 = Some p2 ->
    p1 <= p2.

End Shadow.

(** ** The C library call on [argv[1]] *)

Module Libc.
Import Size.

(** [isspace] in the C locale. *)
Definition isspace (c : ascii) : bool :=
  let n := Z.of_N (N_of_ascii c) in (n =? 32) || ((9 <=? n) && (n <=? 13)).

Definition digit (c : ascii) : option Z :=
  let n := Z.of_N (N_of_ascii c) in
  if (48 <=? n) && (n <=? 57) then Some (n - 48) else None.

Fixpoint skip_space (s : string) : string :=
  match s with
  | String c r => if isspace c then skip_space r else s
  | EmptyString => s
  end.

(** The value of the longest run of decimal digits at the head of [s]. *)
Fixpoint digits (acc : Z) (s : string) : Z :=
  match s with
  | String c r =>
      match digit c with
      | Some d => digits (10 * acc + d) r
      | None => acc
      end
  | EmptyString => acc
  end.

(** [std::strtoull(s, NULL, 10)] after ISO C 7.22.1.4: white space, an
    optional sign, then digits; zero when no digit follows, [ULLONG_MAX]
    when the value does not fit, negation in the unsigned type after a
    minus sign. *)
Definition strtoull (s : string) : Z :=
  let s := skip_space s in
  let '(neg, s) :=
    match s with
    | String "-"%char r => (true, r)
    | String "+"%char r => (false, r)
    | _ => (false, s)
    end in
  let v := digits 0 s in
  if modulus <=? v then modulus - 1
  else if neg : bool then wrap (- v) else v.

(** No decimal numeral can be read at the head of [s]. *)
Definition no_numeral (s : string) : bool :=
  let s := skip_space s in
  let s :=
    match s with
    | String "-"%char r => r
    | String "+"%char r => r
    | _ => s
    end in
  match s with
  | String c _ => match digit c with Some _ => false | None => true end
  | EmptyString => true
  end.

End Libc.

(** ** External collaborators *)

(** The simulated design: the object [top] of type [cxxrtl_design::p_top],
    with the ports and the memory [memory_p_mem] that [main] touches. *)
Class Design := {
  p_top : Type;
  (** [top.memory_p_mem.depth()] and [top.memory_p_mem.data[0].bits] *)
  memory_p_mem_depth : Z;
  memory_p_mem_bits : Z;
  step : p_top -> p_top;
  p_clk_set : bool -> p_top -> p_top;
  p_rsp____ready : p_top -> bool;
  p_rsp____valid : p_top -> bool;
  p_req____valid : p_top -> bool;
  p_req____ready : p_top -> bool;
  p_sram____clk__en : p_top -> bool;
  p_sram____write__en : p_top -> bool;
  p_sram____addr : p_top -> Z;
  (** [top.memory_p_mem.data[cell].bit(bit)] and [.set_bit(bit, v)] *)
  memory_p_mem_bit : p_top -> Z -> Z -> bool;
  memory_p_mem_set_bit : p_top -> Z -> Z -> bool -> p_top;
}.

(** The C++ library: [strtod], the generator [std::mt19937_64] and the two
    distributions.  A value of [rng] is the state of the generator together
    with that of the distribution objects; a draw returns the value and the
    next state.  [positive x] is [0 < x] on doubles, the precondition that
    [std::poisson_distribution] puts on its mean. *)
Class Libstd := {
  double : Type;
  strtod : string -> double;
  positive : double -> bool;
  rng : Type;
  mt19937_64 : Z -> rng;
  poisson_distribution : double -> rng -> Z * rng;
  uniform_int_distribution : Z -> Z -> rng -> Z * rng;
}.

(** What the design must provide for [main] to stay within its arrays: at
    least one cell; cells of 4 to 64 bits, since the report reads five
    entries of a histogram of [num_memory_bits + 1] and the shadow of a
    cell is one [size_t]; a sampled address within the memory. *)
Record DesignOk `{Design} : Prop := {
  depth_range : 1 <= memory_p_mem_depth < Size.modulus;
  bits_range : 4 <= memory_p_mem_bits <= 64;
  addr_range : forall t, 0 <= p_sram____addr t < memory_p_mem_depth;
}.

(** The contract of the distributions: a [size_t] count, and a value within
    the closed range the distribution was built with. *)
Record LibstdOk `{Libstd} : Prop := {
  poisson_range : forall m g,
    0 <= (poisson_distribution m g).1 < Size.modulus;
  uniform_range : forall a b g,
    a <= b -> a <= (uniform_int_distribution a b g).1 <= b;
}.

(** ** The harness *)

Section Harness.
Context `{D : Design} `{L : Libstd}.
Import Size.

(** [num_memory_cells] and [num_memory_bits] (lines 16-17). *)
Definition num_memory_cells : Z := memory_p_mem_depth.
Definition num_memory_bits : Z := memory_p_mem_bits.

(** The distributions [memory_cell] and [memory_bit] (lines 74-75), and
    the draw from [num_flips], the distribution that line 73 builds from
    [lambda]; [simulate] below checks that it can be built. *)
Definition memory_cell : rng -> Z * rng :=
  uniform_int_distribution 0 (wrap (num_memory_cells - 1)).
Definition memory_bit : rng -> Z * rng :=
  uniform_int_distribution 0 (wrap (num_memory_bits - 1)).
Definition num_flips (lambda : double) : rng -> Z * rng :=
  poisson_distribution lambda.

(** The global [top] and the locals of [main] that live across the loop. *)
Record sim := Sim {
  top : p_top;
  generator : rng;
  flips_array : list Z;
  req_valid_cycles : Z;
  req_fire_cycles : Z;
  rsp_ready_cycles : Z;
  rsp_fire_cycles : Z;
  errors_injected : Z;
  read_with_errors : list Z;
}.

Definition set_top (t : p_top) (s : sim) : sim :=
  Sim t (generator s) (flips_array s) (req_valid_cycles s) (req_fire_cycles s)
    (rsp_ready_cycles s) (rsp_fire_cycles s) (errors_injected s)
    (read_with_errors s).
Definition set_generator (g : rng) (s : sim) : sim :=
  Sim (top s) g (flips_array s) (req_valid_cycles s) (req_fire_cycles s)
    (rsp_ready_cycles s) (rsp_fire_cycles s) (errors_injected s)
    (read_with_errors s).
Definition set_flips_array (fa : list Z) (s : sim) : sim :=
  Sim (top s) (generator s) fa (req_valid_cycles s) (req_fire_cycles s)
    (rsp_ready_cycles s) (rsp_fire_cycles s) (errors_injected s)
    (read_with_errors s).
Definition set_req_valid_cycles (n : Z) (s : sim) : sim :=
  Sim (top s) (generator s) (flips_array s) n (req_fire_cycles s)
    (rsp_ready_cycles s) (rsp_fire_cycles s) (errors_injected s)
    (read_with_errors s).
Definition set_req_fire_cycles (n : Z) (s : sim) : sim :=
  Sim (top s) (generator s) (flips_array s) (req_valid_cycles s) n
    (rsp_ready_cycles s) (rsp_fire_cycles s) (errors_injected s)
    (read_with_errors s).
Definition set_rsp_ready_cycles (n : Z) (s : sim) : sim :=
  Sim (top s) (generator s) (flips_array s) (req_valid_cycles s)
    (req_fire_cycles s) n (rsp_fire_cycles s) (errors_injected s)
    (read_with_errors s).
Definition set_rsp_fire_cycles (n : Z) (s : sim) : sim :=
  Sim (top s) (generator s) (flips_array s) (req_valid_cycles s)
    (req_fire_cycles s) (rsp_ready_cycles s) n (errors_injected s)
    (read_with_errors s).
Definition set_errors_injected (n : Z) (s : sim) : sim :=
  Sim (top s) (generator s) (flips_array s) (req_valid_cycles s)
    (req_fire_cycles s) (rsp_ready_cycles s) (rsp_fire_cycles s) n
    (read_with_errors s).
Definition set_read_with_errors (h : list Z) (s : sim) : sim :=
  Sim (top s) (generator s) (flips_array s) (req_valid_cycles s)
    (req_fire_cycles s) (rsp_ready_cycles s) (rsp_fire_cycles s)
    (errors_injected s) h.

(** [clk()] (lines 20-34): the clock high, a step, the clock low, a step. *)
Definition clk (t : p_top) : p_top :=
  step (p_clk_set false (step (p_clk_set true t))).

(** One pass of the body of [while(flips--)] (lines 113-122).  The memory
    of the design is indexed like [flips_array]; its bit index must lie
    within the cell. *)
Definition inject_one (s : sim) : option sim :=
  let '(cell, g1) := memory_cell (generator s) in
  let '(bit, g2) := memory_bit g1 in
  fa ← Shadow.flip cell bit (flips_array s);
  if (cell <? num_memory_cells) && (bit <? num_memory_bits) then
    let was := memory_p_mem_bit (top s) cell bit in
    let t := memory_p_mem_set_bit (top s) cell bit (negb was) in
    Some (set_errors_injected (incr (errors_injected s))
            (set_top t (set_flips_array fa (set_generator g2 s))))
  else None.

(** [while(flips--)] (line 112). *)
Fixpoint inject (flips : nat) (s : sim) : option sim :=
  match flips with
  | O => Some s
  | S k => s' ← inject_one s; inject k s'
  end.

(** The draw of line 111 followed by the injection loop. *)
Definition injecting (lambda : double) (s : sim) : option sim :=
  let '(flips, g) := num_flips lambda (generator s) in
  inject (Z.to_nat flips) (set_generator g s).

(** The handshake counters (lines 126-142). *)
Definition handshakes (s : sim) : sim :=
  let t := top s in
  let s :=
    if p_rsp____ready t
    then set_rsp_ready_cycles (incr (rsp_ready_cycles s)) s else s in
  let s :=
    if p_rsp____valid t && p_rsp____ready t
    then set_rsp_fire_cycles (incr (rsp_fire_cycles s)) s else s in
  if p_req____valid t then
    let s := set_req_valid_cycles (incr (req_valid_cycles s)) s in
    if p_req____ready t
    then set_req_fire_cycles (incr (req_fire_cycles s)) s else s
  else s.

(** The sampled SRAM port and the two branches on it (lines 144-164). *)
Definition sram (s : sim) : option sim :=
  let sram_clk_en := p_sram____clk__en (top s) in
  let sram_write_en := p_sram____write__en (top s) in
  let sram_addr := p_sram____addr (top s) in
  s ← (if sram_clk_en && negb sram_write_en then
         popcnt ← Shadow.popcnt sram_addr (flips_array s);
         old ← nth_cell (read_with_errors s) popcnt;
         h ← set_cell (read_with_errors s) popcnt (incr old);
         Some (set_read_with_errors h s)
       else Some s);
  if sram_clk_en && sram_write_en then
    fa ← Shadow.clear sram_addr (flips_array s);
    Some (set_flips_array fa s)
  else Some s.

(** The observation of a cycle and its clock (lines 126-168). *)
Definition observing (s : sim) : option sim :=
  s ← sram (handshakes s);
  Some (set_top (clk (top s)) s).

(** The body of the [for] loop (lines 110-172). *)
Definition cycle (lambda : double) (s : sim) : option sim :=
  s ← injecting lambda s; observing s.

(** [for (clk_cycle = 0; clk_cycle < total_cycles; ++clk_cycle)]. *)
Fixpoint loop (lambda : double) (total_cycles : nat) (s : sim) : option sim :=
  match total_cycles with
  | O => Some s
  | S k => s' ← cycle lambda s; loop lambda k s'
  end.

(** One [printf] of a name and a [%zd] value, closed by a line feed. *)
Definition line (name : string) (v : Z) : string :=
  name +:+ pretty (signed v) +:+ String (ascii_of_N 10) EmptyString.

(** The report (lines 184-192); the histogram is read at indices 0 to 4. *)
Definition report (s : sim) : option (list string) :=
  h ← mapM (nth_cell (read_with_errors s)) [0; 1; 2; 3; 4];
  Some ([ line "req_valid_cycles: " (req_valid_cycles s);
          line "req_fire_cycles: " (req_fire_cycles s);
          line "rsp_ready_cycles: " (rsp_ready_cycles s);
          line "rsp_fire_cycles: " (rsp_fire_cycles s);
          line "errors_injected: " (errors_injected s) ]
        ++ imap (fun i v =>
                   line ("read_with_errors[" +:+ pretty i +:+ "] = ") v) h).

(** The state on entry to the loop (lines 70-106), after the settling
    half-cycle of lines 92-93. *)
Definition start (seed : Z) (t : p_top) : sim :=
  {| top := step (p_clk_set false t);
     generator := mt19937_64 (wrap seed);
     flips_array := Shadow.init num_memory_cells;
     req_valid_cycles := 0;
     req_fire_cycles := 0;
     rsp_ready_cycles := 0;
     rsp_fire_cycles := 0;
     errors_injected := 0;
     read_with_errors := replicate (Z.to_nat (wrap (num_memory_bits + 1))) 0 |}.

(** What a run of the process leaves: its exit status, what it printed, and
    the design. *)
Record outcome := Outcome {
  status : Z;
  stdout : list string;
  design : p_top;
}.

(** The arguments, the construction of [num_flips], the loop and the
    trailing half-cycle (lines 66-176).  Line 73 builds
    [std::poisson_distribution<size_t>(lambda)], which requires
    [0 < lambda]: with any other mean the run is undefined. *)
Definition simulate (seed : Z) (t : p_top) (a1 a2 : string) : option sim :=
  let total_cycles := Libc.strtoull a1 in
  let lambda := strtod a2 in
  if positive lambda then
    s ← loop lambda (Z.to_nat total_cycles) (start seed t);
    Some (set_top (step (p_clk_set false (top s))) s)
  else None.

(** [main]: [argv] holds [argc] strings, [seed] is what [time(NULL)]
    returns and [t] the design as constructed. *)
Definition main (seed : Z) (t : p_top) (argv : list string) : option outcome :=
  let argc := Z.of_nat (length argv) in
  if argc <? 3 then Some (Outcome 1 [] t)
  else
    a1 ← argv !! 1%nat;
    a2 ← argv !! 2%nat;
    s ← simulate seed t a1 a2;
    out ← report s;
    Some (Outcome 0 out (top s)).

(** *** Quantities of a run used in the statements below *)

(** The sampled SRAM port shows a read, or a write (lines 149 and 161). *)
Definition is_read (t : p_top) : bool :=
  p_sram____clk__en t && negb (p_sram____write__en t).
Definition is_write (t : p_top) : bool :=
  p_sram____clk__en t && p_sram____write__en t.

(** [f 0 + ... + f (n - 1)]. *)
Fixpoint sum_upto (f : nat -> Z) (n : nat) : Z :=
  match n with
  | O => 0
  | S k => sum_upto f k + f k
  end.

(** The flip count that cycle [k] of the run from [s0] draws at line 111:
    the draw made from the generator as cycle [k] finds it. *)
Definition drawn_in (lambda : double) (s0 : sim) (k : nat) : Z :=
  match loop lambda k s0 with
  | Some s => (num_flips lambda (generator s)).1
  | None => 0
  end.

(** Whether cycle [k] of the run from [s0] samples a read: the SRAM port
    as it stands after the injections of that cycle. *)
Definition read_in (lambda : double) (s0 : sim) (k : nat) : bool :=
  match loop lambda k s0 ≫= injecting lambda with
  | Some s => is_read (top s)
  | None => false
  end.

(** The number of cycles among the first [n] that sample a read. *)
Definition reads_observed (lambda : double) (s0 : sim) (n : nat) : Z :=
  sum_upto (fun k => if read_in lambda s0 k then 1 else 0) n.

(** The arrays of [main] have the sizes they were declared with, and the
    shadow holds no bit beyond the width of a cell. *)
Record sim_ok (s : sim) : Prop := {
  flips_array_length :
    Z.of_nat (length (flips_array s)) = num_memory_cells;
  flips_array_range :
    Forall (fun v => 0 <= v < 2 ^ num_memory_bits) (flips_array s);
  read_with_errors_length :
    Z.of_nat (length (read_with_errors s)) = num_memory_bits + 1;
  errors_injected_range : 0 <= errors_injected s < modulus;
}.

(** The four handshake counters together. *)
Definition handshake_counts (s : sim) : Z * Z * Z * Z :=
  (req_valid_cycles s, req_fire_cycles s,
   rsp_ready_cycles s, rsp_fire_cycles s).

(** The states between the statements of the handshake phase: after line
    128, after line 135, after line 137 and after line 142. *)
Definition handshake_points (s : sim) : list sim :=
  let t := top s in
  let s1 :=
    if p_rsp____ready t
    then set_rsp_ready_cycles (incr (rsp_ready_cycles s)) s else s in
  let s2 :=
    if p_rsp____valid t && p_rsp____ready t
    then set_rsp_fire_cycles (incr (rsp_fire_cycles s1)) s1 else s1 in
  let s3 :=
    if p_req____valid t
    then set_req_valid_cycles (incr (req_valid_cycles s2)) s2 else s2 in
  let s4 :=
    if p_req____valid t then
      if p_req____ready t
      then set_req_fire_cycles (incr (req_fire_cycles s3)) s3 else s3
    else s3 in
  [s1; s2; s3; s4].

(** The handshake counters after [k] cycles. *)
Record handshake_ok (k : Z) (s : sim) : Prop := {
  req_fire_le_valid : 0 <= req_fire_cycles s <= req_valid_cycles s;
  req_valid_le_cycles : req_valid_cycles s <= k;
  rsp_fire_le_ready : 0 <= rsp_fire_cycles s <= rsp_ready_cycles s;
  rsp_ready_le_cycles : rsp_ready_cycles s <= k;
}.

(** The ten lines of a report. *)
Definition report_lines (rv rf pr pf ei : Z) (h : list Z) : list string :=
  [ line "req_valid_cycles: " rv; line "req_fire_cycles: " rf;
    line "rsp_ready_cycles: " pr; line "rsp_fire_cycles: " pf;
    line "errors_injected: " ei ]
  ++ imap (fun i v => line ("read_with_errors[" +:+ pretty i +:+ "] = ") v) h.

End Harness.

(** ** A test bench: a small design and a scripted random source *)

Module Bench.
Import Size.

(** A design of 8 cells of 8 bits.  It counts rising clock edges; its ports
    are functions of the count: the SRAM port addresses cell 3, reads on
    counts 0, 1 and 3 modulo 4 and writes on count 2. *)
Record toy := Toy {
  toy_clk : bool;
  toy_count : Z;
  toy_mem : list Z;
}.

Definition toy_step (t : toy) : toy :=
  if toy_clk t then Toy true (toy_count t + 1) (toy_mem t) else t.

Definition toy_set_bit (t : toy) (cell bit : Z) (v : bool) : toy :=
  Toy (toy_clk t) (toy_count t)
    (alter (fun w => if v then Z.setbit w bit else Z.clearbit w bit)
       (Z.to_nat cell) (toy_mem t)).

#[export] Instance toy_design : Design := {|
  p_top := toy;
  memory_p_mem_depth := 8;
  memory_p_mem_bits := 8;
  step := toy_step;
  p_clk_set := fun b t => Toy b (toy_count t) (toy_mem t);
  p_rsp____ready := fun t => negb (toy_count t mod 3 =? 0);
  p_rsp____valid := fun t => toy_count t mod 2 =? 1;
  p_req____valid := fun t => negb (toy_count t mod 4 =? 3);
  p_req____ready := fun t => toy_count t mod 2 =? 0;
  p_sram____clk__en := fun _ => true;
  p_sram____write__en := fun t => toy_count t mod 4 =? 2;
  p_sram____addr := fun _ => 3;
  memory_p_mem_bit := fun t cell bit =>
    Z.testbit (default 0 (toy_mem t !! Z.to_nat cell)) bit;
  memory_p_mem_set_bit := toy_set_bit;
|}.

Definition toy_reset : toy := Toy false 0 (replicate 8 0).

(** A random source that replays a script: the generator is seeded with
    the sixteen hexadecimal digits of the seed, lowest first, and every
    draw consumes one of them.  The mean of the Poisson draw is a whole
    number, read from the digits at the head of the argument; a mean of
    zero is not [positive]. *)
Definition script (seed : Z) : list Z :=
  (fun i => (seed / 16 ^ i) mod 16) <$> seqZ 0 16.

Definition next (g : list Z) : Z := default 0 (head g).

#[export] Instance scripted : Libstd := {|
  double := Z;
  strtod := Libc.strtoull;
  positive := fun m => 0 <? m;
  rng := list Z;
  mt19937_64 := script;
  poisson_distribution := fun m g =>
    (if m =? 0 then 0 else wrap (next g), tail g);
  uniform_int_distribution := fun a b g =>
    (a + next g mod (b - a + 1), tail g);
|}.

(** The states of the bench used below: the loop entry with the script
    1, 3, 5 ahead (one flip, at cell 3, bit 5), and a state in which the
    port shows a write to cell 3 while the shadow of cell 3 holds bits 3
    and 5. *)
Definition fresh : sim := start 0x531 toy_reset.

Definition dirty : sim :=
  {| top := Toy false 2 (replicate 8 0);
     generator := [];
     flips_array := [0; 0; 0; 40; 0; 0; 0; 0];
     req_valid_cycles := 2;
     req_fire_cycles := 1;
     rsp_ready_cycles := 1;
     rsp_fire_cycles := 1;
     errors_injected := 2;
     read_with_errors := [1; 1; 0; 0; 0; 0; 0; 0; 0] |}.

End Bench.

(** ** The memory dump, and quantities of the injection and the histogram *)

Section Dump.
Context `{D : Design} `{L : Libstd}.
Import Size.

(** The integer whose bits are the lowest [n] bits of cell [i] of the
    memory of the design. *)
Fixpoint value_below (n : nat) (t : p_top) (i : Z) : Z :=
  match n with
  | O => 0
  | S k =>
      let v := value_below k t i in
      if memory_p_mem_bit t i (Z.of_nat k) then Z.setbit v (Z.of_nat k) else v
  end.

(** [top.memory_p_mem[i].get<size_t>()] (line 86). *)
Definition memory_value (t : p_top) (i : Z) : Z :=
  wrap (value_below (Z.to_nat num_memory_bits) t i).

(** The hexadecimal digit of [d], in lower case as [%zx] prints it. *)
Definition hex_char (d : Z) : ascii :=
  default "0"%char (list_ascii_of_string "0123456789abcdef" !! Z.to_nat d).

(** The hexadecimal digits of [v] in front of [acc]; sixteen digits hold
    any [size_t]. *)
Fixpoint hex_go (fuel : nat) (v : Z) (acc : string) : string :=
  match fuel with
  | O => acc
  | S f =>
      let acc := String (hex_char (v mod 16)) acc in
      if v / 16 =? 0 then acc else hex_go f (v / 16) acc
  end.

(** [%0<width>zx]: the digits of [v], with zeros in front up to [width]. *)
Definition hex (width : nat) (v : Z) : string :=
  let digits := hex_go 16 v EmptyString in
  string_of_list_ascii (replicate (width - String.length digits) "0"%char)
  +:+ digits.

(** The three values of a line of the dump (lines 86-88): the cell, its
    shadow, and the two combined by exclusive or. *)
Definition dump_row (s : sim) (i : Z) : option (Z * Z * Z) :=
  flip_val ← nth_cell (flips_array s) i;
  let mem_val := memory_value (top s) i in
  Some (mem_val, flip_val, Z.lxor mem_val flip_val).

Definition dump_rows (s : sim) : option (list (Z * Z * Z)) :=
  mapM (dump_row s) (seqZ 0 num_memory_cells).

(** The [printf] of line 88. *)
Definition dump_line (i : nat) (row : Z * Z * Z) : string :=
  let '(mem_val, flip_val, real) := row in
  hex 2 (Z.of_nat i) +:+ ": " +:+ hex 10 mem_val +:+ "  "
  +:+ hex 10 flip_val +:+ "  " +:+ hex 10 real
  +:+ String (ascii_of_N 10) EmptyString.

(** [dump_mem] (lines 83-90): the heading, then a line for each cell. *)
Definition dump_mem (s : sim) : option (list string) :=
  rows ← dump_rows s;
  Some (("      memory       flip        real   "
         +:+ String (ascii_of_N 10) EmptyString)
        :: imap dump_line rows).

(** What the design memory must satisfy for the dump to be read: on the
    states [valid] singles out, writing a bit of a cell within the memory
    changes that bit and no other, and leaves the state in [valid]. *)
Record MemoryOk (valid : p_top -> Prop) : Prop := {
  valid_set_bit : forall t cell bit v,
    valid t -> valid (memory_p_mem_set_bit t cell bit v);
  bit_set_bit : forall t cell bit v c b,
    valid t ->
    0 <= cell < memory_p_mem_depth -> 0 <= bit < memory_p_mem_bits ->
    0 <= c -> 0 <= b ->
    memory_p_mem_bit (memory_p_mem_set_bit t cell bit v) c b
    = if decide (c = cell /\ b = bit) then v else memory_p_mem_bit t c b;
}.

(** The bit of the memory with the recorded flip taken back out: what
    the cell would hold had nothing been injected. *)
Definition real_bit (t : p_top) (fa : list Z) (c b : Z) : bool :=
  xorb (memory_p_mem_bit t c b) (default false (Shadow.bit_at c b fa)).

(** The generator after the two draws of one injection (lines 113-114),
    and after the draws of a whole cycle (lines 111-114). *)
Definition draw_position (g : rng) : rng :=
  (memory_bit (memory_cell g).2).2.

Definition generator_after_cycle (lambda : double) (g : rng) : rng :=
  let '(flips, g1) := num_flips lambda g in
  Nat.iter (Z.to_nat flips) draw_position g1.

(** The sum of the entries of a histogram. *)
Definition histogram_total (h : list Z) : Z := foldr Z.add 0 h.

(** How often the position [(c, b)] occurs among [ops]. *)
Definition hits (c b : Z) (ops : list (Z * Z)) : nat :=
  length (filter (fun p => p = (c, b)) ops).

End Dump.

(** A state of the bench with two recorded flips: bit 5 of cell 3 and
    bit 0 of cell 1 are flipped in the memory and in the shadow. *)
Definition flipped : sim (D := Bench.toy_design) (L := Bench.scripted) :=
  @Sim Bench.toy_design Bench.scripted
    (Bench.Toy false 1 [7; 1; 0; 32; 0; 0; 0; 0]) [2; 3; 5; 1; 0]
    [0; 1; 0; 32; 0; 0; 0; 0] 1 1 0 0 2 [1; 0; 0; 0; 0; 0; 0; 0; 0].

(** The states of the bench design whose memory has its eight cells. *)
Definition toy_valid (t : Bench.toy) : Prop :=
  length (Bench.toy_mem t) = 8%nat.

(** The bench design with cells declared 2 bits wide. *)
Definition narrow_design : Design :=
  {| p_top := Bench.toy;
     memory_p_mem_depth := 8;
     memory_p_mem_bits := 2;
     step := Bench.toy_step;
     p_clk_set := @p_clk_set Bench.toy_design;
     p_rsp____ready := @p_rsp____ready Bench.toy_design;
     p_rsp____valid := @p_rsp____valid Bench.toy_design;
     p_req____valid := @p_req____valid Bench.toy_design;
     p_req____ready := @p_req____ready Bench.toy_design;
     p_sram____clk__en := @p_sram____clk__en Bench.toy_design;
     p_sram____write__en := @p_sram____write__en Bench.toy_design;
     p_sram____addr := @p_sram____addr Bench.toy_design;
     memory_p_mem_bit := @memory_p_mem_bit Bench.toy_design;
     memory_p_mem_set_bit := Bench.toy_set_bit |}.

(** ** Sanity checks of the embedding on concrete inputs *)

Example popcount_40 : Size.popcount 40 = 2.
Proof. reflexivity. Qed.

Example flip_3_5 :
  Shadow.flip 3 5 (Shadow.init 8) = Some [0; 0; 0; 32; 0; 0; 0; 0].
Proof. reflexivity. Qed.

Example strtoull_12 : Libc.strtoull "  12 cycles" = 12.
Proof. reflexivity. Qed.

Example strtoull_minus_1 : Libc.strtoull "-1" = 2 ^ 64 - 1.
Proof. reflexivity. Qed.

Example bench_run :
  stdout <$> main (D := Bench.toy_design) (L := Bench.scripted)
               0x1353531 Bench.toy_reset ["sim"; "6"; "1"]
  = Some [ line "req_valid_cycles: " 5; line "req_fire_cycles: " 3;
           line "rsp_ready_cycles: " 4; line "rsp_fire_cycles: " 2;
           line "errors_injected: " 4;
           line "read_with_errors[0] = " 3; line "read_with_errors[1] = " 2;
           line "read_with_errors[2] = " 0; line "read_with_errors[3] = " 0;
           line "read_with_errors[4] = " 0 ].
Proof. vm_compute. reflexivity. Qed.

(** ** Facts on 64-bit values and arrays *)

Section SizeFacts.
Import Size.

Lemma modulus_eq : modulus = 18446744073709551616.
Proof. reflexivity. Qed.

Lemma wrap_range z : 0 <= wrap z < modulus.
Proof. unfold wrap. apply Z.mod_pos_bound. rewrite modulus_eq. lia. Qed.

Lemma wrap_small z : 0 <= z < modulus -> wrap z = z.
Proof. intros Hz. unfold wrap. by apply Z.mod_small. Qed.

Lemma incr_small z : 0 <= z < modulus - 1 -> incr z = z + 1.
Proof. intros Hz. unfold incr. apply wrap_small. lia. Qed.

Lemma shl1_in_range bit : 0 <= bit < 64 -> shl1 bit = Some (2 ^ bit).
Proof.
  intros Hb. unfold shl1.
  destruct (Z.leb_spec 0 bit); [|lia]. destruct (Z.ltb_spec bit 64); [|lia].
  simpl. f_equal. rewrite Z.shiftl_1_l. apply wrap_small.
  split; [apply Z.pow_nonneg; lia|].
  unfold modulus. apply Z.pow_lt_mono_r; lia.
Qed.

Lemma shl1_Some bit mask :
  shl1 bit = Some mask -> 0 <= bit < 64 /\ mask = 2 ^ bit.
Proof.
  intros Hs. assert (0 <= bit < 64) as Hb.
  { unfold shl1 in Hs. destruct (Z.leb_spec 0 bit); [|done].
    destruct (Z.ltb_spec bit 64); [lia|done]. }
  rewrite (shl1_in_range _ Hb) in Hs. by simplify_eq.
Qed.

Lemma popcount_below_bounds n x : 0 <= popcount_below n x <= Z.of_nat n.
Proof.
  induction n as [|n IH]; simpl popcount_below; [lia|].
  destruct (Z.testbit x (Z.of_nat n)); lia.
Qed.

Lemma popcount_below_ext n x y :
  (forall k, 0 <= k < Z.of_nat n -> Z.testbit x k = Z.testbit y k) ->
  popcount_below n x = popcount_below n y.
Proof.
  induction n as [|n IH]; intros Hxy; simpl popcount_below; [done|].
  rewrite IH by (intros k Hk; apply Hxy; lia).
  rewrite (Hxy (Z.of_nat n)) by lia. done.
Qed.

Lemma testbit_lxor_pow2 x b k :
  0 <= b -> 0 <= k ->
  Z.testbit (Z.lxor x (2 ^ b)) k
  = if decide (k = b) then negb (Z.testbit x k) else Z.testbit x k.
Proof.
  intros Hb Hk. rewrite Z.lxor_spec. case_decide as Hkb.
  - subst k. rewrite Z.pow2_bits_true by done. apply xorb_true_r.
  - rewrite Z.pow2_bits_false by done. apply xorb_false_r.
Qed.

Lemma popcount_below_flip n x b :
  0 <= b < Z.of_nat n ->
  popcount_below n (Z.lxor x (2 ^ b))
  = popcount_below n x + (if Z.testbit x b then -1 else 1).
Proof.
  induction n as [|n IH]; intros Hb; [lia|]. simpl popcount_below.
  rewrite testbit_lxor_pow2 by lia.
  destruct (Z.eq_dec (Z.of_nat n) b) as [<-|Hne].
  - rewrite (popcount_below_ext n (Z.lxor _ _) x).
    + rewrite decide_True by done.
      destruct (Z.testbit x (Z.of_nat n)); simpl; lia.
    + intros k Hk. rewrite testbit_lxor_pow2 by lia. case_decide; [lia|done].
  - rewrite IH by lia. rewrite decide_False by done.
    repeat case_match; lia.
Qed.

End SizeFacts.

Section RangeFacts.
Import Size.

Lemma testbit_above m x k :
  0 <= x < 2 ^ m -> m <= k -> Z.testbit x k = false.
Proof.
  intros [Hx0 Hxm] Hk. destruct (Z.eq_dec x 0) as [->|Hne].
  - apply Z.bits_0.
  - apply Z.bits_above_log2; [done|].
    assert (Z.log2 x < m); [|lia]. apply Z.log2_lt_pow2; lia.
Qed.

Lemma popcount_below_small n x m :
  0 <= x < 2 ^ m -> 0 <= m -> popcount_below n x <= m.
Proof.
  intros Hx Hm. induction n as [|n IH]; [simpl; lia|].
  destruct (Z.lt_ge_cases (Z.of_nat n) m) as [Hlt|Hge].
  - pose proof (popcount_below_bounds (S n) x). lia.
  - simpl popcount_below. rewrite (testbit_above m) by done. lia.
Qed.

Lemma popcount_range x m :
  0 <= x < 2 ^ m -> 0 <= m -> 0 <= popcount x <= m.
Proof.
  intros Hx Hm. split.
  - apply popcount_below_bounds.
  - by apply popcount_below_small.
Qed.

Lemma lxor_pow2_range x b m :
  0 <= x < 2 ^ m -> 0 <= b < m -> 0 <= Z.lxor x (2 ^ b) < 2 ^ m.
Proof.
  intros [Hx0 Hxm] [Hb0 Hbm].
  assert (0 <= 2 ^ b) as Hp by (apply Z.pow_nonneg; lia).
  assert (0 <= Z.lxor x (2 ^ b)) as Hnn by (apply Z.lxor_nonneg; lia).
  split; [done|].
  destruct (Z.eq_dec (Z.lxor x (2 ^ b)) 0) as [->|Hne].
  { apply Z.pow_pos_nonneg; lia. }
  apply Z.log2_lt_pow2; [lia|].
  pose proof (Z.log2_lxor x (2 ^ b) Hx0 Hp) as Hl.
  rewrite Z.log2_pow2 in Hl by done.
  destruct (Z.eq_dec x 0) as [->|Hx].
  { change (Z.log2 0) with 0 in Hl. lia. }
  assert (Z.log2 x < m) by (apply Z.log2_lt_pow2; lia). lia.
Qed.

Context {A : Type}.
Implicit Types a : list A.

Lemma nth_cell_lookup a i : 0 <= i -> nth_cell a i = a !! Z.to_nat i.
Proof. intros Hi. unfold nth_cell. by destruct (Z.leb_spec 0 i); [|lia]. Qed.

Lemma nth_cell_Some a i v :
  nth_cell a i = Some v ->
  0 <= i < Z.of_nat (length a) /\ a !! Z.to_nat i = Some v.
Proof.
  unfold nth_cell. destruct (Z.leb_spec 0 i); [|done]. intros Hl.
  apply lookup_lt_Some in Hl as Hlen. split; [lia|done].
Qed.

Lemma nth_cell_in_range a i :
  0 <= i < Z.of_nat (length a) -> is_Some (nth_cell a i).
Proof.
  intros Hi. rewrite nth_cell_lookup by lia. apply lookup_lt_is_Some. lia.
Qed.

Lemma set_cell_Some a i v w :
  nth_cell a i = Some w -> set_cell a i v = Some (<[Z.to_nat i := v]> a).
Proof. intros Hw. unfold set_cell. by rewrite Hw. Qed.

Lemma nth_cell_insert a i v :
  0 <= i < Z.of_nat (length a) ->
  nth_cell (<[Z.to_nat i := v]> a) i = Some v.
Proof.
  intros Hi. rewrite nth_cell_lookup by lia.
  apply list_lookup_insert_eq. lia.
Qed.

Lemma nth_cell_insert_ne a i j v :
  0 <= i -> i <> j ->
  nth_cell (<[Z.to_nat i := v]> a) j = nth_cell a j.
Proof.
  intros Hi Hne. unfold nth_cell. destruct (Z.leb_spec 0 j); [|done].
  apply list_lookup_insert_ne. lia.
Qed.

Lemma nth_cell_replicate (n : nat) (x : A) i :
  0 <= i < Z.of_nat n -> nth_cell (replicate n x) i = Some x.
Proof.
  intros Hi. rewrite nth_cell_lookup by lia.
  apply lookup_replicate_2. lia.
Qed.

End RangeFacts.

(** ** Facts on the shadow model *)

Section ShadowFacts.
Import Size Shadow.
Implicit Types fa : list Z.

Lemma flip_Some cell bit fa v :
  nth_cell fa cell = Some v -> 0 <= bit < 64 ->
  flip cell bit fa = Some (<[Z.to_nat cell := Z.lxor v (2 ^ bit)]> fa).
Proof.
  intros Hv Hb. unfold flip. rewrite Hv, (shl1_in_range _ Hb).
  by apply set_cell_Some with v.
Qed.

Lemma flip_inv cell bit fa fa' :
  flip cell bit fa = Some fa' ->
  exists v, nth_cell fa cell = Some v /\ 0 <= bit < 64
            /\ fa' = <[Z.to_nat cell := Z.lxor v (2 ^ bit)]> fa.
Proof.
  unfold flip. intros Hf.
  destruct (nth_cell fa cell) as [v|] eqn:Hv; [|done].
  destruct (shl1 bit) as [mask|] eqn:Hm; [|done].
  apply shl1_Some in Hm as [Hb ->].
  rewrite (set_cell_Some _ _ _ _ Hv) in Hf. simplify_eq. eauto.
Qed.

Lemma clear_Some sram_addr fa v :
  nth_cell fa sram_addr = Some v ->
  clear sram_addr fa = Some (<[Z.to_nat sram_addr := 0]> fa).
Proof. apply set_cell_Some. Qed.

Lemma popcnt_Some sram_addr fa v :
  nth_cell fa sram_addr = Some v -> popcnt sram_addr fa = Some (popcount v).
Proof. intros Hv. unfold popcnt. by rewrite Hv. Qed.

End ShadowFacts.

(** ** The shadow model: flips toggle *)

Section ShadowToggle.
Import Size Shadow.
Implicit Types fa : list Z.

Lemma bit_at_flip_same cell bit fa fa' :
  flip cell bit fa = Some fa' ->
  bit_at cell bit fa' = negb <$> bit_at cell bit fa.
Proof.
  intros (v & Hv & Hb & ->)%flip_inv. apply nth_cell_Some in Hv as Hc.
  unfold bit_at. rewrite nth_cell_insert, Hv by lia. simpl.
  rewrite testbit_lxor_pow2, decide_True by (done || lia). done.
Qed.

Lemma bit_at_flip_other c b cell bit fa fa' :
  (c, b) <> (cell, bit) -> 0 <= cell ->
  flip c b fa = Some fa' -> bit_at cell bit fa' = bit_at cell bit fa.
Proof.
  intros Hne Hcell (v & Hv & Hb & ->)%flip_inv.
  apply nth_cell_Some in Hv as Hc. unfold bit_at.
  destruct (Z.eq_dec c cell) as [->|Hc'].
  - rewrite nth_cell_insert, Hv by lia. simpl. f_equal.
    destruct (Z.neg_nonneg_cases bit) as [Hneg|Hnn].
    + by rewrite !Z.testbit_neg_r.
    + rewrite testbit_lxor_pow2, decide_False by (lia || congruence). done.
  - by rewrite nth_cell_insert_ne by lia.
Qed.

Lemma bit_at_flip_all ops cell bit fa fa' :
  (cell, bit) ∉ ops -> 0 <= cell ->
  flip_all ops fa = Some fa' -> bit_at cell bit fa' = bit_at cell bit fa.
Proof.
  revert fa. induction ops as [|[c b] ops IH]; intros fa Hnot Hcell Hrun.
  - simpl in Hrun. by simplify_eq.
  - simpl in Hrun. destruct (flip c b fa) as [fa1|] eqn:Hf; [|done].
    simpl in Hrun. apply not_elem_of_cons in Hnot as [Hhd Htl].
    rewrite (IH fa1) by done. by apply bit_at_flip_other with c b.
Qed.

Lemma flip_twice cell bit fa fa1 :
  flip cell bit fa = Some fa1 -> flip cell bit fa1 = Some fa.
Proof.
  intros (v & Hv & Hb & ->)%flip_inv. apply nth_cell_Some in Hv as [Hc Hl].
  rewrite (flip_Some _ _ _ (Z.lxor v (2 ^ bit))) by (by rewrite ?nth_cell_insert).
  f_equal. rewrite list_insert_insert_eq.
  rewrite Z.lxor_assoc, Z.lxor_nilpotent, Z.lxor_0_r.
  by apply list_insert_id.
Qed.

(** C5: flipping the same shadow bit twice with no clear of the cell in
    between leaves the bit as it was, whatever other positions are flipped
    in between; done back to back, the two flips restore the whole shadow,
    so a bit that was zero is zero again.  The flips are defined for every
    cell of the array and every bit index below 64. *)
Theorem double_flip_cancels cell bit fa :
  0 <= cell < Z.of_nat (length fa) -> 0 <= bit < 64 ->
  exists fa1,
    flip cell bit fa = Some fa1 /\
    bit_at cell bit fa1 = negb <$> bit_at cell bit fa /\
    flip cell bit fa1 = Some fa /\
    (forall ops fa2 fa3,
        (cell, bit) ∉ ops ->
        flip_all ops fa1 = Some fa2 ->
        flip cell bit fa2 = Some fa3 ->
        bit_at cell bit fa3 = bit_at cell bit fa) /\
    (bit_at cell bit fa = Some false ->
     forall fa2, flip cell bit fa1 = Some fa2 ->
                 bit_at cell bit fa2 = Some false).
Proof.
  intros Hc Hb. destruct (nth_cell_in_range fa cell Hc) as [v Hv].
  pose proof (flip_Some _ _ _ _ Hv Hb) as Hf.
  eexists; split; [exact Hf|].
  split; [by apply bit_at_flip_same|].
  split; [by apply flip_twice|]. split.
  - intros ops fa2 fa3 Hnot Hrun Hf3.
    rewrite (bit_at_flip_same _ _ _ _ Hf3).
    rewrite (bit_at_flip_all _ _ _ _ _ Hnot (proj1 Hc) Hrun).
    rewrite (bit_at_flip_same _ _ _ _ Hf).
    destruct (bit_at cell bit fa) as [[]|]; done.
  - intros H0 fa2 Hf2. rewrite (flip_twice _ _ _ _ Hf) in Hf2.
    by simplify_eq.
Qed.

Lemma double_flip_cancels_witness :
  exists fa1,
    flip 3 5 (init 8) = Some fa1 /\
    bit_at 3 5 fa1 = negb <$> bit_at 3 5 (init 8) /\
    flip 3 5 fa1 = Some (init 8) /\
    (forall ops fa2 fa3,
        (3, 5) ∉ ops ->
        flip_all ops fa1 = Some fa2 ->
        flip 3 5 fa2 = Some fa3 ->
        bit_at 3 5 fa3 = bit_at 3 5 (init 8)) /\
    (bit_at 3 5 (init 8) = Some false ->
     forall fa2, flip 3 5 fa1 = Some fa2 -> bit_at 3 5 fa2 = Some false).
Proof. apply (double_flip_cancels 3 5 (init 8)); simpl; lia. Defined.

(** C1, as stated, fails: after a clear of cell 3, the injection at
    (3, 5) raises the popcount of the cell to 1 and a second injection at
    (3, 5) lowers it to 0. *)
Lemma repeated_flip_lowers_popcount : ~ injections_never_lower_popcount.
Proof.
  intros Hmono.
  specialize (Hmono 3 [(3, 5)] 3 5 (init 8) (init 8)
                [0; 0; 0; 32; 0; 0; 0; 0] (init 8) 1 0).
  assert (1 <= 0); [|lia]. by apply Hmono.
Qed.

(** C1, amended: an injection at a position within the array changes the
    popcount of the cell it hits by exactly one, up when the shadow bit was
    clear and down when it was already set, and leaves every other cell as
    it was; so between two clears the popcount of a cell does not decrease
    over injections that hit bits not yet set. *)
Theorem flip_changes_popcount_by_one cell bit fa v :
  nth_cell fa cell = Some v -> 0 <= bit < 64 ->
  exists fa',
    flip cell bit fa = Some fa' /\
    popcnt cell fa'
    = Some (popcount v + (if Z.testbit v bit then -1 else 1)) /\
    (Z.testbit v bit = false -> popcnt cell fa' = Some (popcount v + 1)) /\
    (forall c, c <> cell -> popcnt c fa' = popcnt c fa).
Proof.
  intros Hv Hb. apply nth_cell_Some in Hv as Hc.
  eexists. split; [by apply flip_Some|].
  assert (popcnt cell (<[Z.to_nat cell := Z.lxor v (2 ^ bit)]> fa)
          = Some (popcount v + (if Z.testbit v bit then -1 else 1))) as Hp.
  { rewrite (popcnt_Some _ _ (Z.lxor v (2 ^ bit))) by (apply nth_cell_insert; lia).
    f_equal. apply popcount_below_flip. lia. }
  split; [done|]. split.
  - intros Hclear. by rewrite Hp, Hclear.
  - intros c Hne. unfold popcnt. by rewrite nth_cell_insert_ne by lia.
Qed.

Lemma flip_changes_popcount_by_one_witness :
  exists fa',
    flip 3 5 [0; 0; 0; 8; 0] = Some fa' /\
    popcnt 3 fa' = Some (popcount 8 + (if Z.testbit 8 5 then -1 else 1)) /\
    (Z.testbit 8 5 = false -> popcnt 3 fa' = Some (popcount 8 + 1)) /\
    (forall c, c <> 3 -> popcnt c fa' = popcnt c [0; 0; 0; 8; 0]).
Proof.
  apply (flip_changes_popcount_by_one 3 5 [0; 0; 0; 8; 0] 8);
    [reflexivity | lia].
Defined.

End ShadowToggle.

(** ** The phases of a cycle *)

Section Phases.
Context `{D : Design} `{L : Libstd}.
Context (HD : DesignOk) (HL : LibstdOk).
Import Size.
Implicit Types s : sim.

Lemma cell_draw_range g :
  0 <= (memory_cell g).1 < num_memory_cells.
Proof.
  pose proof (depth_range HD) as Hd. unfold memory_cell, num_memory_cells.
  rewrite wrap_small by lia.
  pose proof (uniform_range HL 0 (memory_p_mem_depth - 1) g). lia.
Qed.

Lemma bit_draw_range g :
  0 <= (memory_bit g).1 < num_memory_bits.
Proof.
  pose proof (bits_range HD) as Hb. unfold memory_bit, num_memory_bits.
  rewrite wrap_small by (rewrite modulus_eq; lia).
  pose proof (uniform_range HL 0 (memory_p_mem_bits - 1) g). lia.
Qed.

Lemma start_ok seed t : sim_ok (start seed t).
Proof.
  pose proof (depth_range HD) as Hd. pose proof (bits_range HD) as Hb.
  split; simpl.
  - unfold Shadow.init, num_memory_cells. rewrite length_replicate. lia.
  - apply Forall_replicate. split; [done|].
    apply Z.pow_pos_nonneg; unfold num_memory_bits; lia.
  - rewrite length_replicate, wrap_small; unfold num_memory_bits.
    + lia.
    + rewrite modulus_eq. lia.
  - rewrite modulus_eq. lia.
Qed.

(** One injection: defined on a well-formed state; it flips the drawn
    shadow bit and counts one error. *)
Lemma inject_one_spec s :
  sim_ok s ->
  exists s',
    inject_one s = Some s' /\ sim_ok s' /\
    errors_injected s' = incr (errors_injected s) /\
    read_with_errors s' = read_with_errors s /\
    handshake_counts s' = handshake_counts s.
Proof.
  intros [Hlen Hrange Hhist Herr]. unfold inject_one.
  pose proof (cell_draw_range (generator s)) as Hc.
  destruct (memory_cell (generator s)) as [cell g1]. simpl in Hc.
  pose proof (bit_draw_range g1) as Hb.
  destruct (memory_bit g1) as [bit g2]. simpl in Hb.
  pose proof (bits_range HD) as Hbits. fold num_memory_bits in Hbits.
  destruct (nth_cell_in_range (flips_array s) cell) as [v Hv]; [lia|].
  rewrite (flip_Some _ _ _ v) by (done || lia). simpl.
  destruct (Z.ltb_spec cell num_memory_cells); [|lia].
  destruct (Z.ltb_spec bit num_memory_bits); [|lia]. simpl.
  eexists. split; [done|]. split; [|done].
  split; simpl; [by rewrite length_insert| |done|apply wrap_range].
  apply Forall_insert; [done|]. apply lxor_pow2_range; [|lia].
  apply nth_cell_Some in Hv as [_ Hv].
  by apply (Forall_lookup_1 _ _ _ _ Hrange Hv).
Qed.

(** The injection loop: as many errors counted as passes made. *)
Lemma inject_spec flips s :
  sim_ok s ->
  exists s',
    inject flips s = Some s' /\ sim_ok s' /\
    errors_injected s' = wrap (errors_injected s + Z.of_nat flips) /\
    read_with_errors s' = read_with_errors s /\
    handshake_counts s' = handshake_counts s.
Proof.
  revert s. induction flips as [|k IH]; intros s Hok.
  - exists s. simpl. rewrite Z.add_0_r, wrap_small; [done|].
    apply (errors_injected_range _ Hok).
  - destruct (inject_one_spec s Hok) as (s1 & H1 & Hok1 & He1 & Hh1 & Hc1).
    destruct (IH s1 Hok1) as (s' & H' & Hok' & He' & Hh' & Hc').
    exists s'. simpl. rewrite H1. simpl. split; [done|]. split; [done|].
    split; [|split; congruence].
    rewrite He', He1. unfold incr, wrap.
    rewrite Z.add_mod_idemp_l by (rewrite modulus_eq; lia). f_equal. lia.
Qed.

(** The draw and the injections of a cycle. *)
Lemma injecting_spec lambda s :
  sim_ok s ->
  exists s',
    injecting lambda s = Some s' /\ sim_ok s' /\
    errors_injected s'
    = wrap (errors_injected s + (num_flips lambda (generator s)).1) /\
    read_with_errors s' = read_with_errors s /\
    handshake_counts s' = handshake_counts s.
Proof.
  intros Hok. unfold injecting.
  pose proof (poisson_range HL lambda (generator s)) as Hp.
  fold (num_flips lambda) in Hp.
  destruct (num_flips lambda (generator s)) as [flips g]. simpl in *.
  destruct (inject_spec (Z.to_nat flips) (set_generator g s))
    as (s' & H' & Hok' & He' & Hh' & Hc').
  { by destruct Hok. }
  exists s'. rewrite Z2Nat.id in He' by lia. done.
Qed.

Lemma injecting_none lambda s :
  (num_flips lambda (generator s)).1 = 0 ->
  injecting lambda s
  = Some (set_generator (num_flips lambda (generator s)).2 s).
Proof.
  unfold injecting. destruct (num_flips lambda (generator s)) as [flips g].
  simpl. by intros ->.
Qed.

(** The handshake phase touches the four counters only. *)
Lemma handshakes_frame s :
  top (handshakes s) = top s /\
  generator (handshakes s) = generator s /\
  flips_array (handshakes s) = flips_array s /\
  errors_injected (handshakes s) = errors_injected s /\
  read_with_errors (handshakes s) = read_with_errors s.
Proof. unfold handshakes. by repeat case_match. Qed.

Lemma handshakes_ok s : sim_ok s -> sim_ok (handshakes s).
Proof.
  intros [H1 H2 H3 H4].
  destruct (handshakes_frame s) as (_ & _ & Hf & He & Hh).
  split; by rewrite ?Hf, ?He, ?Hh.
Qed.

(** A fire counter moves only together with its valid or ready counter. *)
Lemma handshakes_step s :
  let s' := handshakes s in
  (req_fire_cycles s' = req_fire_cycles s \/
   req_fire_cycles s' = incr (req_fire_cycles s) /\
   req_valid_cycles s' = incr (req_valid_cycles s)) /\
  (rsp_fire_cycles s' = rsp_fire_cycles s \/
   rsp_fire_cycles s' = incr (rsp_fire_cycles s) /\
   rsp_ready_cycles s' = incr (rsp_ready_cycles s)).
Proof.
  unfold handshakes.
  destruct (p_rsp____ready (top s)), (p_rsp____valid (top s)),
    (p_req____valid (top s)), (p_req____ready (top s)); simpl; auto.
Qed.

Lemma handshake_points_last s :
  last (handshake_points s) = Some (handshakes s).
Proof.
  unfold handshake_points, handshakes. cbn [last].
  by destruct (p_rsp____ready (top s)), (p_rsp____valid (top s)),
    (p_req____valid (top s)), (p_req____ready (top s)).
Qed.

Lemma handshake_points_counts k s p :
  handshake_ok k s -> k + 1 < modulus ->
  p ∈ handshake_points s -> handshake_ok (k + 1) p.
Proof.
  intros [H1 H2 H3 H4] Hk. unfold handshake_points.
  rewrite !elem_of_cons, elem_of_nil.
  destruct (p_rsp____ready (top s)), (p_rsp____valid (top s)),
    (p_req____valid (top s)), (p_req____ready (top s)); cbn [andb];
    intros [->|[->|[->|[->|[]]]]];
    split; cbn [req_valid_cycles req_fire_cycles rsp_ready_cycles
                  rsp_fire_cycles set_req_valid_cycles set_req_fire_cycles
                  set_rsp_ready_cycles set_rsp_fire_cycles];
    rewrite ?incr_small by lia; lia.
Qed.

Lemma handshakes_counts k s :
  handshake_ok k s -> k + 1 < modulus -> handshake_ok (k + 1) (handshakes s).
Proof.
  intros [H1 H2 H3 H4] Hk. unfold handshakes.
  destruct (p_rsp____ready (top s)), (p_rsp____valid (top s)),
    (p_req____valid (top s)), (p_req____ready (top s)); simpl;
    split; simpl; rewrite ?incr_small by lia; lia.
Qed.

(** The SRAM phase on a read, on a write, and with the port idle. *)
Lemma sram_read s popcnt old :
  is_read (top s) = true ->
  Shadow.popcnt (p_sram____addr (top s)) (flips_array s) = Some popcnt ->
  nth_cell (read_with_errors s) popcnt = Some old ->
  sram s
  = Some (set_read_with_errors
            (<[Z.to_nat popcnt := incr old]> (read_with_errors s)) s).
Proof.
  unfold is_read, sram. intros Hr Hp Hold.
  destruct (p_sram____clk__en (top s)); [|done].
  destruct (p_sram____write__en (top s)); [done|]. simpl.
  rewrite Hp. simpl. rewrite Hold. simpl.
  by rewrite (set_cell_Some _ _ _ old).
Qed.

Lemma sram_write s v :
  is_write (top s) = true ->
  nth_cell (flips_array s) (p_sram____addr (top s)) = Some v ->
  sram s
  = Some (set_flips_array
            (<[Z.to_nat (p_sram____addr (top s)) := 0]> (flips_array s)) s).
Proof.
  unfold is_write, sram. intros Hw Hv.
  destruct (p_sram____clk__en (top s)); [|done].
  destruct (p_sram____write__en (top s)); [|done]. simpl.
  by rewrite (clear_Some _ _ v).
Qed.

Lemma sram_idle s :
  is_read (top s) = false -> is_write (top s) = false -> sram s = Some s.
Proof.
  unfold is_read, is_write, sram.
  by destruct (p_sram____clk__en (top s)), (p_sram____write__en (top s)).
Qed.

Lemma read_or_write_or_idle t :
  is_read t = true /\ is_write t = false \/
  is_read t = false /\ is_write t = true \/
  is_read t = false /\ is_write t = false.
Proof.
  unfold is_read, is_write.
  destruct (p_sram____clk__en t), (p_sram____write__en t); auto.
Qed.

(** What the shadow holds at the sampled address. *)
Lemma shadow_at_addr s :
  sim_ok s ->
  exists v,
    nth_cell (flips_array s) (p_sram____addr (top s)) = Some v /\
    0 <= v < 2 ^ num_memory_bits /\
    is_Some (nth_cell (read_with_errors s) (popcount v)).
Proof.
  intros [Hlen Hrange Hhist _].
  pose proof (addr_range HD (top s)) as Ha. fold num_memory_cells in Ha.
  pose proof (bits_range HD) as Hb. fold num_memory_bits in Hb.
  destruct (nth_cell_in_range (flips_array s) (p_sram____addr (top s)))
    as [v Hv]; [lia|].
  exists v. split; [done|].
  assert (0 <= v < 2 ^ num_memory_bits) as Hvr.
  { apply nth_cell_Some in Hv as [_ Hv].
    by apply (Forall_lookup_1 _ _ _ _ Hrange Hv). }
  split; [done|]. apply nth_cell_in_range.
  pose proof (popcount_range v num_memory_bits Hvr). lia.
Qed.

(** The SRAM phase is defined on a well-formed state and touches the
    histogram and the shadow only. *)
Lemma sram_spec s :
  sim_ok s ->
  exists s',
    sram s = Some s' /\ sim_ok s' /\
    top s' = top s /\ generator s' = generator s /\
    errors_injected s' = errors_injected s /\
    handshake_counts s' = handshake_counts s.
Proof.
  intros Hok. destruct (shadow_at_addr s Hok) as (v & Hv & Hvr & [old Hold]).
  pose proof (popcnt_Some _ _ _ Hv) as Hp.
  pose proof Hok as [Hlen Hrange Hhist Herr].
  destruct (read_or_write_or_idle (top s)) as [[Hr _]|[[_ Hw]|[Hr Hw]]].
  - rewrite (sram_read s (popcount v) old Hr Hp Hold).
    eexists. split; [reflexivity|]. split; [|repeat split].
    split; [exact Hlen|exact Hrange| |exact Herr].
    cbn [read_with_errors set_read_with_errors].
    by rewrite length_insert.
  - rewrite (sram_write s v Hw Hv).
    eexists. split; [reflexivity|]. split; [|repeat split].
    split; [|  |exact Hhist|exact Herr];
      cbn [flips_array set_flips_array].
    + by rewrite length_insert.
    + apply Forall_insert; [exact Hrange|]. split; [lia|].
      apply Z.pow_pos_nonneg; [lia|].
      pose proof (bits_range HD). unfold num_memory_bits. lia.
  - rewrite (sram_idle s Hr Hw). exists s. split; [reflexivity|]. split; [exact Hok|repeat split].
Qed.

(** The observation of a cycle. *)
Lemma observing_spec s :
  sim_ok s ->
  exists s',
    observing s = Some s' /\ sim_ok s' /\
    generator s' = generator s /\
    errors_injected s' = errors_injected s /\
    handshake_counts s' = handshake_counts (handshakes s).
Proof.
  intros Hok. unfold observing.
  destruct (sram_spec (handshakes s) (handshakes_ok s Hok))
    as (s1 & H1 & Hok1 & Ht1 & Hg1 & He1 & Hc1).
  destruct (handshakes_frame s) as (_ & Hg & _ & He & _).
  rewrite H1. simpl. eexists. split; [done|].
  split; [by destruct Hok1|]. simpl. split; [congruence|].
  split; [congruence|done].
Qed.

(** A whole cycle. *)
Lemma cycle_spec lambda s :
  sim_ok s ->
  exists s1 s',
    injecting lambda s = Some s1 /\ observing s1 = Some s' /\
    cycle lambda s = Some s' /\ sim_ok s1 /\ sim_ok s' /\
    errors_injected s'
    = wrap (errors_injected s + (num_flips lambda (generator s)).1) /\
    handshake_counts s1 = handshake_counts s /\
    handshake_counts s' = handshake_counts (handshakes s1).
Proof.
  intros Hok.
  destruct (injecting_spec lambda s Hok) as (s1 & H1 & Hok1 & He1 & _ & Hc1).
  destruct (observing_spec s1 Hok1) as (s' & H' & Hok' & _ & He' & Hc').
  exists s1, s'. unfold cycle. rewrite H1. simpl.
  split_and!; [reflexivity|exact H'|exact H'|exact Hok1|exact Hok'
              | |exact Hc1|exact Hc'].
  by rewrite He', He1.
Qed.

End Phases.

(** ** The loop *)

Section Loop.
Context `{D : Design} `{L : Libstd}.
Context (HD : DesignOk) (HL : LibstdOk).
Import Size.
Implicit Types s : sim.

Lemma loop_snoc lambda k s :
  loop lambda (S k) s = loop lambda k s ≫= cycle lambda.
Proof.
  revert s. induction k as [|k IH]; intros s.
  - simpl. by destruct (cycle lambda s).
  - change (loop lambda (S (S k)) s)
      with (cycle lambda s ≫= loop lambda (S k)).
    change (loop lambda (S k) s) with (cycle lambda s ≫= loop lambda k).
    destruct (cycle lambda s) as [s'|]; [|done]. simpl. apply IH.
Qed.

(** The loop runs to its end, whatever the number of cycles. *)
Lemma loop_total lambda k s :
  sim_ok s -> exists s', loop lambda k s = Some s' /\ sim_ok s'.
Proof.
  intros Hok. induction k as [|k (s1 & H1 & Hok1)]; [by exists s|].
  destruct (cycle_spec HD HL lambda s1 Hok1)
    as (_ & s' & _ & _ & Hc & _ & Hok' & _).
  exists s'. by rewrite loop_snoc, H1.
Qed.

End Loop.

(** ** The report and [main] *)

Section Main.
Context `{D : Design} `{L : Libstd}.
Import Size.
Implicit Types s : sim.

Lemma digits_nonneg (a : string) acc : 0 <= acc -> 0 <= Libc.digits acc a.
Proof.
  revert acc. induction a as [|c r IH]; intros acc Hacc; simpl; [done|].
  unfold Libc.digit.
  destruct (Z.leb_spec 48 (Z.of_N (N_of_ascii c))); simpl; [|done].
  destruct (Z.leb_spec (Z.of_N (N_of_ascii c)) 57); [|done].
  apply IH. lia.
Qed.

Lemma strtoull_range a : 0 <= Libc.strtoull a < modulus.
Proof.
  unfold Libc.strtoull.
  destruct (match Libc.skip_space a with
            | String "-"%char r => (true, r)
            | String "+"%char r => (false, r)
            | _ => (false, Libc.skip_space a)
            end) as [neg r].
  pose proof (digits_nonneg r 0) as Hd.
  destruct (Z.leb_spec modulus (Libc.digits 0 r)).
  - rewrite modulus_eq. lia.
  - destruct neg; [apply wrap_range|lia].
Qed.

Lemma strtoull_no_numeral a :
  Libc.no_numeral a = true -> Libc.strtoull a = 0.
Proof.
  unfold Libc.no_numeral, Libc.strtoull. intros Hn.
  assert (forall r, match r with
                    | String c _ =>
                        match Libc.digit c with Some _ => false | None => true end
                    | EmptyString => true
                    end = true -> Libc.digits 0 r = 0) as Hdig.
  { intros [|c r]; simpl; [done|]. by destruct (Libc.digit c). }
  destruct (Libc.skip_space a) as [|c r]; [done|].
  destruct (Ascii.ascii_dec c "-") as [->|Hm];
    [|destruct (Ascii.ascii_dec c "+") as [->|Hp]].
  - by rewrite (Hdig r Hn).
  - by rewrite (Hdig r Hn).
  - assert ((let '(neg, s) :=
               match String c r with
               | String "-"%char r0 => (true, r0)
               | String "+"%char r0 => (false, r0)
               | _ => (false, String c r)
               end in
             if modulus <=? Libc.digits 0 s then modulus - 1
             else if neg then wrap (- Libc.digits 0 s) else Libc.digits 0 s)
            = (if modulus <=? Libc.digits 0 (String c r) then modulus - 1
               else Libc.digits 0 (String c r))) as ->.
    { destruct c as [[] [] [] [] [] [] [] []]; try reflexivity; congruence. }
    assert (match String c r with
            | String "-"%char r0 => r0
            | String "+"%char r0 => r0
            | _ => String c r
            end = String c r) as Heq.
    { destruct c as [[] [] [] [] [] [] [] []]; try reflexivity; congruence. }
    rewrite Heq in Hn. by rewrite (Hdig (String c r) Hn).
Qed.

Lemma report_spec s :
  (5 <= length (read_with_errors s))%nat ->
  report s
  = Some (report_lines (req_valid_cycles s) (req_fire_cycles s)
            (rsp_ready_cycles s) (rsp_fire_cycles s) (errors_injected s)
            (take 5 (read_with_errors s))).
Proof.
  intros Hlen. unfold report.
  destruct (read_with_errors s) as [|x0 [|x1 [|x2 [|x3 [|x4 h]]]]];
    simpl in Hlen; try lia.
  reflexivity.
Qed.

End Main.

(** ** Whole runs *)

Section Runs.
Context `{D : Design} `{L : Libstd}.
Context (HD : DesignOk) (HL : LibstdOk).
Import Size.
Implicit Types s : sim.

(** Induction along the cycles of a run. *)
Lemma loop_invariant lambda (P : nat -> sim -> Prop) s0 (n : nat) :
  sim_ok s0 -> P O s0 ->
  (forall k s s',
      (k < n)%nat -> loop lambda k s0 = Some s -> sim_ok s -> P k s ->
      cycle lambda s = Some s' -> P (S k) s') ->
  forall k, (k <= n)%nat ->
    exists s, loop lambda k s0 = Some s /\ sim_ok s /\ P k s.
Proof.
  intros Hok0 H0 Hstep k. induction k as [|k IH]; intros Hk.
  - by exists s0.
  - destruct IH as (s & Hs & Hok & HP); [lia|].
    destruct (cycle_spec HD HL lambda s Hok)
      as (_ & s' & _ & _ & Hc & _ & Hok' & _).
    exists s'. rewrite loop_snoc, Hs. simpl.
    split; [exact Hc|]. split; [exact Hok'|].
    apply (Hstep k s s'); (lia || assumption).
Qed.

Lemma main_spec seed t prog a1 a2 rest s :
  positive (strtod a2) = true ->
  loop (strtod a2) (Z.to_nat (Libc.strtoull a1)) (start seed t) = Some s ->
  sim_ok s ->
  simulate seed t a1 a2 = Some (set_top (step (p_clk_set false (top s))) s) /\
  main seed t (prog :: a1 :: a2 :: rest)
  = Some (Outcome 0
            (report_lines (req_valid_cycles s) (req_fire_cycles s)
               (rsp_ready_cycles s) (rsp_fire_cycles s) (errors_injected s)
               (take 5 (read_with_errors s)))
            (step (p_clk_set false (top s)))).
Proof.
  intros Hpos Hs Hok.
  assert (simulate seed t a1 a2
          = Some (set_top (step (p_clk_set false (top s))) s)) as Hsim.
  { unfold simulate. by rewrite Hpos, Hs. }
  split; [exact Hsim|]. unfold main.
  destruct (Z.ltb_spec (Z.of_nat (length (prog :: a1 :: a2 :: rest))) 3)
    as [Hlt|_].
  { simpl length in Hlt. lia. }
  cbn [lookup list_lookup]. cbn [mbind option_bind]. rewrite Hsim.
  cbn [mbind option_bind]. rewrite report_spec.
  - reflexivity.
  - cbn [read_with_errors set_top].
    pose proof (read_with_errors_length _ Hok) as Hlen.
    pose proof (bits_range HD). unfold num_memory_bits in Hlen. lia.
Qed.

(** C3: with a mean that the Poisson distribution accepts, the run ends,
    and the [errors_injected] it reports is the sum over its cycles of the
    flip count drawn in the cycle, as a [size_t]: the sum itself whenever
    the sum fits 64 bits. *)
Theorem errors_injected_is_sum_of_draws seed t prog a1 a2 rest :
  positive (strtod a2) = true ->
  let lambda := strtod a2 in
  let n := Z.to_nat (Libc.strtoull a1) in
  let total := sum_upto (drawn_in lambda (start seed t)) n in
  exists s h,
    simulate seed t a1 a2 = Some s /\
    main seed t (prog :: a1 :: a2 :: rest)
    = Some (Outcome 0
              (report_lines (req_valid_cycles s) (req_fire_cycles s)
                 (rsp_ready_cycles s) (rsp_fire_cycles s) (errors_injected s)
                 h)
              (top s)) /\
    errors_injected s = wrap total /\
    (total < modulus -> errors_injected s = total).
Proof.
  intros Hpos lambda n total.
  assert (exists s,
             loop lambda n (start seed t) = Some s /\ sim_ok s /\
             errors_injected s = wrap total /\ 0 <= total)
    as (s & Hs & Hok & He & Hnn).
  { apply (loop_invariant lambda
             (fun k s =>
                errors_injected s
                = wrap (sum_upto (drawn_in lambda (start seed t)) k)
                /\ 0 <= sum_upto (drawn_in lambda (start seed t)) k)
             (start seed t) n); [by apply start_ok|done| |done].
    intros k s s' Hk Hs Hok [He Hnn] Hc.
    destruct (cycle_spec HD HL lambda s Hok)
      as (_ & s2 & _ & _ & Hc2 & _ & _ & He2 & _).
    rewrite Hc in Hc2. injection Hc2 as <-.
    assert (drawn_in lambda (start seed t) k
            = (num_flips lambda (generator s)).1) as Hd.
    { unfold drawn_in. by rewrite Hs. }
    pose proof (poisson_range HL lambda (generator s)) as Hp.
    fold (num_flips lambda) in Hp.
    cbn [sum_upto]. rewrite Hd. split; [|lia].
    rewrite He2, He. unfold wrap.
    by rewrite Z.add_mod_idemp_l by (rewrite modulus_eq; lia). }
  destruct (main_spec seed t prog a1 a2 rest s Hpos Hs Hok) as [Hsim Hmain].
  eexists _, _. split; [exact Hsim|]. split; [exact Hmain|].
  cbn [errors_injected set_top]. split; [exact He|].
  intros Hlt. rewrite He. by apply wrap_small.
Qed.

Lemma handshake_ok_counts k s s' :
  handshake_counts s' = handshake_counts s ->
  handshake_ok k s -> handshake_ok k s'.
Proof.
  unfold handshake_counts. intros [= H1 H2 H3 H4] [Ha Hb Hc Hd].
  split; congruence.
Qed.

(** C4: throughout a run the fire counters stay at or below the valid and
    ready counters: after every number [k] of cycles up to [total_cycles],
    between the statements that count the handshakes of a cycle, and so in
    the report, which a run with a mean that the Poisson distribution
    accepts prints; and over a cycle a fire counter moves only together
    with its valid or ready counter. *)
Theorem fire_counters_bounded seed t prog a1 a2 rest :
  let lambda := strtod a2 in
  let n := Z.to_nat (Libc.strtoull a1) in
  (forall k, (k <= n)%nat ->
     exists s,
       loop lambda k (start seed t) = Some s /\
       req_fire_cycles s <= req_valid_cycles s /\
       rsp_fire_cycles s <= rsp_ready_cycles s /\
       ((k < n)%nat ->
        exists s1 s',
          injecting lambda s = Some s1 /\
          handshake_counts s1 = handshake_counts s /\
          (forall p, p ∈ handshake_points s1 ->
                     req_fire_cycles p <= req_valid_cycles p /\
                     rsp_fire_cycles p <= rsp_ready_cycles p) /\
          cycle lambda s = Some s' /\
          handshake_counts s' = handshake_counts (handshakes s1) /\
          (req_fire_cycles s' = req_fire_cycles s \/
           req_fire_cycles s' = incr (req_fire_cycles s) /\
           req_valid_cycles s' = incr (req_valid_cycles s)) /\
          (rsp_fire_cycles s' = rsp_fire_cycles s \/
           rsp_fire_cycles s' = incr (rsp_fire_cycles s) /\
           rsp_ready_cycles s' = incr (rsp_ready_cycles s)))) /\
  (positive lambda = true ->
   exists rv rf pr pf ei h top',
     main seed t (prog :: a1 :: a2 :: rest)
     = Some (Outcome 0 (report_lines rv rf pr pf ei h) top') /\
     rf <= rv /\ pf <= pr).
Proof.
  intros lambda n.
  pose proof (strtoull_range a1) as Hn.
  assert (forall k, (k <= n)%nat ->
            exists s, loop lambda k (start seed t) = Some s /\ sim_ok s /\
                      handshake_ok (Z.of_nat k) s) as Hinv.
  { apply loop_invariant; [by apply start_ok|by split|].
    intros k s s' Hk Hs Hok Hh Hc.
    destruct (cycle_spec HD HL lambda s Hok)
      as (s1 & s2 & _ & _ & Hc2 & _ & _ & _ & Hc1 & Hc').
    rewrite Hc in Hc2. injection Hc2 as <-.
    apply (handshake_ok_counts _ (handshakes s1)); [exact Hc'|].
    replace (Z.of_nat (S k)) with (Z.of_nat k + 1) by lia.
    apply handshakes_counts; [|unfold n in Hk; lia].
    by apply (handshake_ok_counts _ s). }
  split.
  - intros k Hk. destruct (Hinv k Hk) as (s & Hs & Hok & Hh).
    exists s. split; [exact Hs|].
    split; [destruct Hh; lia|]. split; [destruct Hh; lia|]. intros Hlt.
    destruct (cycle_spec HD HL lambda s Hok)
      as (s1 & s' & Hi & _ & Hc & _ & _ & _ & Hc1 & Hc').
    exists s1, s'. split; [exact Hi|]. split; [exact Hc1|]. split.
    { intros p Hp.
      assert (handshake_ok (Z.of_nat k + 1) p) as [? ? ? ?]; [|lia].
      apply (handshake_points_counts _ s1); [|unfold n in Hlt; lia|exact Hp].
      by apply (handshake_ok_counts _ s). }
    split; [exact Hc|]. split; [exact Hc'|].
    pose proof (handshakes_step s1) as Hstep. cbv zeta in Hstep.
    unfold handshake_counts in Hc1, Hc'.
    injection Hc1 as E1 E2 E3 E4. injection Hc' as F1 F2 F3 F4.
    rewrite F1, F2, F3, F4, <- E1, <- E2, <- E3, <- E4. exact Hstep.
  - intros Hpos. destruct (Hinv n (le_n n)) as (s & Hs & Hok & Hh).
    destruct (main_spec seed t prog a1 a2 rest s Hpos Hs Hok) as [_ Hmain].
    eexists _, _, _, _, _, _, _. split; [exact Hmain|].
    destruct Hh; lia.
Qed.

End Runs.

(** ** Reads, writes and the histogram *)

Section Observation.
Context `{D : Design} `{L : Libstd}.
Import Size.
Implicit Types s : sim.

Lemma observing_read s popcnt old :
  is_read (top s) = true ->
  Shadow.popcnt (p_sram____addr (top s)) (flips_array s) = Some popcnt ->
  nth_cell (read_with_errors s) popcnt = Some old ->
  exists s',
    observing s = Some s' /\
    read_with_errors s'
    = <[Z.to_nat popcnt := incr old]> (read_with_errors s) /\
    flips_array s' = flips_array s /\
    generator s' = generator s /\
    top s' = clk (top s).
Proof.
  intros Hr Hp Hold. destruct (handshakes_frame s) as (Ht & Hg & Hf & _ & Hh).
  unfold observing. rewrite (sram_read (handshakes s) popcnt old).
  - eexists. split; [reflexivity|].
    cbn [read_with_errors flips_array generator top set_top
           set_read_with_errors].
    by rewrite Ht, Hg, Hf, Hh.
  - by rewrite Ht.
  - by rewrite Ht, Hf.
  - by rewrite Hh.
Qed.

Lemma observing_write s v :
  is_write (top s) = true ->
  nth_cell (flips_array s) (p_sram____addr (top s)) = Some v ->
  exists s',
    observing s = Some s' /\
    flips_array s'
    = <[Z.to_nat (p_sram____addr (top s)) := 0]> (flips_array s) /\
    read_with_errors s' = read_with_errors s /\
    generator s' = generator s /\
    top s' = clk (top s).
Proof.
  intros Hw Hv. destruct (handshakes_frame s) as (Ht & Hg & Hf & _ & Hh).
  unfold observing. rewrite (sram_write (handshakes s) v).
  - eexists. split; [reflexivity|].
    cbn [read_with_errors flips_array generator top set_top set_flips_array].
    by rewrite Ht, Hg, Hf, Hh.
  - by rewrite Ht.
  - by rewrite Ht, Hf.
Qed.

(** A cycle that draws no flip injects nothing. *)
Lemma cycle_no_flip lambda s :
  (num_flips lambda (generator s)).1 = 0 ->
  cycle lambda s
  = observing (set_generator (num_flips lambda (generator s)).2 s).
Proof. intros H0. unfold cycle. by rewrite injecting_none. Qed.

(** C2: when the sampled SRAM port shows a read, the observation of the
    cycle increments the histogram entry at the popcount of the shadow of
    the sampled address; when it shows a write, it sets the shadow of that
    address to zero.  So a cycle that injects the single flip (cell 3,
    bit 5) into a clean cell and then samples a read of cell 3 increments
    entry 1. *)
Theorem read_counts_and_write_clears s v old :
  nth_cell (flips_array s) (p_sram____addr (top s)) = Some v ->
  nth_cell (read_with_errors s) (popcount v) = Some old ->
  (is_read (top s) = true ->
   exists s',
     observing s = Some s' /\
     read_with_errors s'
     = <[Z.to_nat (popcount v) := incr old]> (read_with_errors s) /\
     flips_array s' = flips_array s) /\
  (is_write (top s) = true ->
   exists s',
     observing s = Some s' /\
     nth_cell (flips_array s') (p_sram____addr (top s)) = Some 0 /\
     flips_array s'
     = <[Z.to_nat (p_sram____addr (top s)) := 0]> (flips_array s) /\
     read_with_errors s' = read_with_errors s) /\
  (forall lambda s0 g0 g1 g2 old1,
     num_flips lambda (generator s0) = (1, g0) ->
     memory_cell g0 = (3, g1) ->
     memory_bit g1 = (5, g2) ->
     3 < num_memory_cells -> 5 < num_memory_bits ->
     nth_cell (flips_array s0) 3 = Some 0 ->
     nth_cell (read_with_errors s0) 1 = Some old1 ->
     let t :=
       memory_p_mem_set_bit (top s0) 3 5
         (negb (memory_p_mem_bit (top s0) 3 5)) in
     is_read t = true -> p_sram____addr t = 3 ->
     exists s',
       cycle lambda s0 = Some s' /\
       read_with_errors s' = <[1%nat := incr old1]> (read_with_errors s0)).
Proof.
  intros Hv Hold. apply nth_cell_Some in Hv as Ha. split; [|split].
  - intros Hr.
    destruct (observing_read s (popcount v) old Hr) as (s' & H' & Hh & Hf & _);
      [by apply popcnt_Some|done|].
    by exists s'.
  - intros Hw.
    destruct (observing_write s v Hw Hv) as (s' & H' & Hf & Hh & _).
    exists s'. split; [exact H'|]. split; [|done].
    rewrite Hf. apply nth_cell_insert. lia.
  - intros lambda s0 g0 g1 g2 old1 Hn Hc Hb Hcells Hbits Hclean Hold1 t Hr Haddr.
    unfold cycle, injecting. rewrite Hn.
    change (Z.to_nat 1) with 1%nat. cbn [inject]. unfold inject_one.
    cbn [generator set_generator]. rewrite Hc, Hb.
    rewrite (flip_Some 3 5 _ 0) by (exact Hclean || lia).
    cbn [mbind option_bind].
    destruct (Z.ltb_spec 3 num_memory_cells); [|lia].
    destruct (Z.ltb_spec 5 num_memory_bits); [|lia].
    cbn [andb top flips_array set_flips_array set_generator set_top
           set_errors_injected mbind option_bind].
    apply nth_cell_Some in Hclean as Hlen.
    match goal with
    | |- exists s', observing ?s1 = Some s' /\ _ =>
        destruct (observing_read s1 1 old1) as (s' & H' & Hh & _)
    end.
    + exact Hr.
    + change (Shadow.popcnt (p_sram____addr t)
                (<[Z.to_nat 3 := Z.lxor 0 (2 ^ 5)]> (flips_array s0))
              = Some 1).
      rewrite Haddr.
      rewrite (popcnt_Some _ _ (Z.lxor 0 (2 ^ 5))); [done|].
      apply nth_cell_insert. lia.
    + exact Hold1.
    + exists s'. split; [exact H'|]. exact Hh.
Qed.

(** C6: when the sampled SRAM port shows a write, the observation of the
    cycle leaves the shadow of the written cell with popcount 0, whatever
    it held before, two set bits included; and if the next cycle draws no
    flip and samples a read of that cell, it increments histogram
    entry 0. *)
Theorem write_resets_popcount s v :
  is_write (top s) = true ->
  nth_cell (flips_array s) (p_sram____addr (top s)) = Some v ->
  exists s1,
    observing s = Some s1 /\
    Shadow.popcnt (p_sram____addr (top s)) (flips_array s1) = Some 0 /\
    (forall lambda old,
       (num_flips lambda (generator s1)).1 = 0 ->
       is_read (top s1) = true ->
       p_sram____addr (top s1) = p_sram____addr (top s) ->
       nth_cell (read_with_errors s1) 0 = Some old ->
       exists s2,
         cycle lambda s1 = Some s2 /\
         read_with_errors s2 = <[0%nat := incr old]> (read_with_errors s1)).
Proof.
  intros Hw Hv. apply nth_cell_Some in Hv as Ha.
  destruct (observing_write s v Hw Hv) as (s1 & H1 & Hf & Hh & _).
  assert (Shadow.popcnt (p_sram____addr (top s)) (flips_array s1) = Some 0)
    as Hp.
  { rewrite Hf. rewrite (popcnt_Some _ _ 0); [done|].
    apply nth_cell_insert. lia. }
  exists s1. split; [exact H1|]. split; [exact Hp|].
  intros lambda old H0 Hr Haddr Hold. rewrite cycle_no_flip by exact H0.
  match goal with
  | |- exists s2, observing ?s1' = Some s2 /\ _ =>
      destruct (observing_read s1' 0 old) as (s2 & H2 & Hh2 & _)
  end; [exact Hr|by cbn [top flips_array set_generator]; rewrite Haddr
       |exact Hold|].
  exists s2. split; [exact H2|exact Hh2].
Qed.

End Observation.

(** ** Runs without cycles, without flips, without arguments *)

Section Scenarios.
Context `{D : Design} `{L : Libstd}.
Import Size.
Implicit Types s : sim.

(** A run of no cycle reports zeros. *)
Lemma main_zero_cycles seed t prog a1 a2 rest :
  4 <= memory_p_mem_bits <= 64 -> Libc.strtoull a1 = 0 ->
  positive (strtod a2) = true ->
  main seed t (prog :: a1 :: a2 :: rest)
  = Some (Outcome 0 (report_lines 0 0 0 0 0 [0; 0; 0; 0; 0])
            (step (p_clk_set false (step (p_clk_set false t))))).
Proof.
  intros Hbits Hzero Hpos. unfold main.
  destruct (Z.ltb_spec (Z.of_nat (length (prog :: a1 :: a2 :: rest))) 3)
    as [Hlt|_].
  { simpl length in Hlt. lia. }
  cbn [lookup list_lookup]. cbn [mbind option_bind].
  unfold simulate. rewrite Hpos, Hzero. change (Z.to_nat 0) with O.
  cbn [loop mbind option_bind]. rewrite report_spec.
  - cbn [read_with_errors req_valid_cycles req_fire_cycles rsp_ready_cycles
           rsp_fire_cycles errors_injected top set_top start].
    rewrite take_replicate.
    replace (5 `min` Z.to_nat (wrap (num_memory_bits + 1)))%nat with 5%nat;
      [reflexivity|].
    unfold num_memory_bits. rewrite wrap_small; rewrite ?modulus_eq; lia.
  - cbn [read_with_errors set_top start]. rewrite length_replicate.
    unfold num_memory_bits. rewrite wrap_small; rewrite ?modulus_eq; lia.
Qed.

(** C8: with two arguments of which the first reads as 0 cycles and the
    second as a mean that the Poisson distribution accepts, the five
    counters and the five histogram entries are reported as 0 and the
    process exits with status 0; the design has only seen the settling and
    the trailing half-cycle. *)
Theorem zero_cycles_report seed t prog a1 a2 rest :
  4 <= memory_p_mem_bits <= 64 -> Libc.strtoull a1 = 0 ->
  positive (strtod a2) = true ->
  main seed t (prog :: a1 :: a2 :: rest)
  = Some (Outcome 0
            [ line "req_valid_cycles: " 0; line "req_fire_cycles: " 0;
              line "rsp_ready_cycles: " 0; line "rsp_fire_cycles: " 0;
              line "errors_injected: " 0;
              line "read_with_errors[0] = " 0;
              line "read_with_errors[1] = " 0;
              line "read_with_errors[2] = " 0;
              line "read_with_errors[3] = " 0;
              line "read_with_errors[4] = " 0 ]
            (step (p_clk_set false (step (p_clk_set false t))))).
Proof. intros Hbits Hzero Hpos. by rewrite main_zero_cycles. Qed.

(** C9: with fewer than three entries in [argv], the program name
    included, [main] returns 1 at once: nothing is printed and the design
    is left as constructed, whatever the design and the random source. *)
Theorem usage_error seed t argv :
  (length argv < 3)%nat -> main seed t argv = Some (Outcome 1 [] t).
Proof.
  intros Hlen. unfold main.
  destruct (Z.ltb_spec (Z.of_nat (length argv)) 3); [done|lia].
Qed.

End Scenarios.

Section QuietRuns.
Context `{D : Design} `{L : Libstd}.
Context (HD : DesignOk) (HL : LibstdOk).
Import Size.
Implicit Types s : sim.

Lemma observing_idle s :
  is_read (top s) = false -> is_write (top s) = false ->
  exists s',
    observing s = Some s' /\
    flips_array s' = flips_array s /\
    read_with_errors s' = read_with_errors s.
Proof.
  intros Hr Hw. destruct (handshakes_frame s) as (Ht & _ & Hf & _ & Hh).
  unfold observing. rewrite sram_idle by (by rewrite Ht).
  eexists. split; [reflexivity|]. by rewrite <- Hf, <- Hh.
Qed.

Lemma init_at_addr t :
  nth_cell (Shadow.init num_memory_cells) (p_sram____addr t) = Some 0.
Proof.
  pose proof (addr_range HD t) as Ha. unfold Shadow.init.
  apply nth_cell_replicate. unfold num_memory_cells. lia.
Qed.

(** A cycle without a flip on a clean shadow: the shadow stays clean, no
    error is counted, and histogram entry 0 counts the read if there is
    one. *)
Lemma quiet_cycle lambda s old :
  sim_ok s ->
  (num_flips lambda (generator s)).1 = 0 ->
  flips_array s = Shadow.init num_memory_cells ->
  nth_cell (read_with_errors s) 0 = Some old ->
  exists s',
    cycle lambda s = Some s' /\
    flips_array s' = Shadow.init num_memory_cells /\
    errors_injected s' = errors_injected s /\
    nth_cell (read_with_errors s') 0
    = Some (if is_read (top s) then incr old else old).
Proof.
  intros Hok H0 Hclean Hold.
  destruct (cycle_spec HD HL lambda s Hok)
    as (_ & s' & _ & _ & Hc & _ & _ & He & _).
  rewrite H0, Z.add_0_r, wrap_small in He
    by apply (errors_injected_range _ Hok).
  exists s'. split; [exact Hc|]. rewrite cycle_no_flip in Hc by exact H0.
  set (s1 := set_generator (num_flips lambda (generator s)).2 s) in *.
  assert (nth_cell (flips_array s1) (p_sram____addr (top s1)) = Some 0)
    as Hv.
  { cbn [s1 flips_array top set_generator]. rewrite Hclean.
    apply init_at_addr. }
  apply nth_cell_Some in Hold as Hlen.
  change (top s) with (top s1).
  destruct (read_or_write_or_idle (top s1)) as [[Hr _]|[[Hr Hw]|[Hr Hw]]];
    rewrite Hr.
  - destruct (observing_read s1 0 old Hr) as (s2 & H2 & Hh & Hf & _);
      [by rewrite (popcnt_Some _ _ 0 Hv)|exact Hold|].
    rewrite Hc in H2. injection H2 as <-.
    rewrite Hf, Hh. split; [exact Hclean|]. split; [exact He|].
    apply nth_cell_insert. cbn [s1 read_with_errors set_generator]. lia.
  - destruct (observing_write s1 0 Hw Hv) as (s2 & H2 & Hf & Hh & _).
    rewrite Hc in H2. injection H2 as <-.
    rewrite Hf, Hh. split; [|split; [exact He|exact Hold]].
    cbn [s1 flips_array top set_generator]. rewrite Hclean.
    apply list_insert_id. pose proof (init_at_addr (top s)) as Hi.
    by apply nth_cell_Some in Hi as [_ Hi].
  - destruct (observing_idle s1 Hr Hw) as (s2 & H2 & Hf & Hh).
    rewrite Hc in H2. injection H2 as <-.
    rewrite Hf, Hh. done.
Qed.

Lemma drawn_in_at lambda s0 (k : nat) s :
  loop lambda k s0 = Some s ->
  drawn_in lambda s0 k = (num_flips lambda (generator s)).1.
Proof. intros Hs. unfold drawn_in. by rewrite Hs. Qed.

(** With two arguments or more and a mean that is not above zero, line 73
    builds the Poisson distribution against its precondition: no run is
    defined. *)
Lemma main_rejected_mean seed t prog a1 a2 rest :
  positive (strtod a2) = false ->
  main seed t (prog :: a1 :: a2 :: rest) = None.
Proof.
  intros Hneg. unfold main.
  destruct (Z.ltb_spec (Z.of_nat (length (prog :: a1 :: a2 :: rest))) 3)
    as [Hlt|_].
  { simpl length in Hlt. lia. }
  cbn [lookup list_lookup]. cbn [mbind option_bind].
  unfold simulate. by rewrite Hneg.
Qed.

(** C7, amended: in a run with a mean that the Poisson distribution
    accepts and in which every cycle draws 0 flips, [errors_injected] ends
    at 0 and histogram entry 0 equals the number of cycles that sampled a
    read, and the report shows both, whatever [total_cycles]. *)
Theorem quiet_run_counts_reads seed t prog a1 a2 rest :
  let lambda := strtod a2 in
  let n := Z.to_nat (Libc.strtoull a1) in
  positive lambda = true ->
  (forall k, (k < n)%nat -> drawn_in lambda (start seed t) k = 0) ->
  exists s rv rf pr pf h top',
    simulate seed t a1 a2 = Some s /\
    errors_injected s = 0 /\
    nth_cell (read_with_errors s) 0
    = Some (reads_observed lambda (start seed t) n) /\
    main seed t (prog :: a1 :: a2 :: rest)
    = Some (Outcome 0
              (report_lines rv rf pr pf 0
                 (reads_observed lambda (start seed t) n :: h))
              top').
Proof.
  intros lambda n Hpos Hquiet. pose proof (strtoull_range a1) as Hn.
  assert (exists s,
             loop lambda n (start seed t) = Some s /\ sim_ok s /\
             flips_array s = Shadow.init num_memory_cells /\
             errors_injected s = 0 /\
             nth_cell (read_with_errors s) 0
             = Some (reads_observed lambda (start seed t) n) /\
             0 <= reads_observed lambda (start seed t) n <= Z.of_nat n)
    as (s & Hs & Hok & _ & He & Hh & _).
  { apply (loop_invariant HD HL lambda
             (fun k s =>
                flips_array s = Shadow.init num_memory_cells /\
                errors_injected s = 0 /\
                nth_cell (read_with_errors s) 0
                = Some (reads_observed lambda (start seed t) k) /\
                0 <= reads_observed lambda (start seed t) k <= Z.of_nat k)
             (start seed t) n); [by apply start_ok| | |done].
    { split; [done|]. split; [done|]. split; [|done].
      cbn [start read_with_errors]. apply nth_cell_replicate.
      pose proof (bits_range HD). unfold num_memory_bits.
      rewrite wrap_small; rewrite ?modulus_eq; lia. }
    intros k s s' Hk Hs Hok (Hclean & He & Hh & Hr) Hc.
    assert ((num_flips lambda (generator s)).1 = 0) as Hzero.
    { rewrite <- (drawn_in_at lambda (start seed t) k s Hs).
      by apply Hquiet. }
    destruct (quiet_cycle lambda s _ Hok Hzero Hclean Hh)
      as (s2 & Hc2 & Hclean2 & He2 & Hh2).
    rewrite Hc in Hc2. injection Hc2 as <-.
    assert (read_in lambda (start seed t) k = is_read (top s)) as Hread.
    { unfold read_in. rewrite Hs. cbn [mbind option_bind].
      by rewrite injecting_none by exact Hzero. }
    unfold reads_observed in *. cbn [sum_upto]. rewrite Hread.
    split; [exact Hclean2|]. split; [congruence|].
    rewrite Hh2. unfold n in Hk.
    destruct (is_read (top s)); [rewrite incr_small by lia|];
      (split; [f_equal; lia|lia]). }
  destruct (main_spec HD seed t prog a1 a2 rest s Hpos Hs Hok)
    as [Hsim Hmain].
  apply nth_cell_Some in Hh as Hlook.
  destruct (read_with_errors s) as [|x0 h] eqn:Hrwe; [by destruct Hlook|].
  destruct Hlook as [_ [= ->]].
  eexists _, _, _, _, _, _, _. split; [exact Hsim|].
  cbn [errors_injected read_with_errors set_top]. rewrite Hrwe.
  split; [exact He|]. split; [reflexivity|].
  rewrite Hmain, He. reflexivity.
Qed.

(** C10, amended: with two arguments on the command line [main] never
    returns the usage error.  When [argv[2]] reads as a mean that the
    Poisson distribution accepts, it runs the loop, prints the ten lines
    of the report and returns 0 whatever [argv[1]] holds, and an [argv[1]]
    without a numeral reads as 0 cycles, so the loop is empty and the
    report all zeros.  When [argv[2]] reads as a mean that is not above
    zero, as an [argv[2]] without a numeral does, the run is undefined:
    there is no report. *)
Theorem unparsable_arguments_run seed t prog a1 a2 rest :
  (forall o,
      main seed t (prog :: a1 :: a2 :: rest) = Some o -> status o = 0) /\
  (positive (strtod a2) = true ->
   (exists rv rf pr pf ei h top',
       main seed t (prog :: a1 :: a2 :: rest)
       = Some (Outcome 0 (report_lines rv rf pr pf ei h) top') /\
       length h = 5%nat) /\
   (Libc.no_numeral a1 = true ->
    Libc.strtoull a1 = 0 /\
    main seed t (prog :: a1 :: a2 :: rest)
    = Some (Outcome 0 (report_lines 0 0 0 0 0 [0; 0; 0; 0; 0])
              (step (p_clk_set false (step (p_clk_set false t))))))) /\
  (positive (strtod a2) = false ->
   main seed t (prog :: a1 :: a2 :: rest) = None).
Proof.
  split; [|split].
  - intros o. unfold main.
    destruct (Z.ltb_spec (Z.of_nat (length (prog :: a1 :: a2 :: rest))) 3)
      as [Hlt|_].
    { simpl length in Hlt. lia. }
    cbn [lookup list_lookup]. cbn [mbind option_bind].
    destruct (simulate seed t a1 a2) as [s|]; [|done].
    cbn [mbind option_bind]. destruct (report s) as [out|]; [|done].
    cbn [mbind option_bind]. by intros [= <-].
  - intros Hpos. split.
    + destruct (loop_total HD HL (strtod a2) (Z.to_nat (Libc.strtoull a1))
                  (start seed t)) as (s & Hs & Hok); [by apply start_ok|].
      destruct (main_spec HD seed t prog a1 a2 rest s Hpos Hs Hok)
        as [_ Hmain].
      eexists _, _, _, _, _, _, _. split; [exact Hmain|].
      rewrite length_take.
      pose proof (read_with_errors_length _ Hok) as Hlen.
      pose proof (bits_range HD). unfold num_memory_bits in Hlen. lia.
    + intros Hno. pose proof (strtoull_no_numeral a1 Hno) as Hz.
      split; [exact Hz|]. apply main_zero_cycles; [|exact Hz|exact Hpos].
      apply (bits_range HD).
  - apply main_rejected_mean.
Qed.

End QuietRuns.

(** ** The test bench meets the interfaces; the theorems at work on it *)

Section BenchFacts.
Import Size Bench.

Lemma toy_ok : DesignOk (H := toy_design).
Proof.
  split.
  - change (1 <= 8 < modulus). rewrite modulus_eq. lia.
  - change (4 <= 8 <= 64). lia.
  - intros t. change (0 <= 3 < 8). lia.
Qed.

Lemma scripted_ok : LibstdOk (H := scripted).
Proof.
  split.
  - intros m g. cbn [poisson_distribution scripted fst].
    destruct (m =? 0); [rewrite modulus_eq; lia|apply wrap_range].
  - intros a b g Hab. cbn [uniform_int_distribution scripted fst].
    pose proof (Z.mod_pos_bound (next g) (b - a + 1)). lia.
Qed.

Lemma read_counts_and_write_clears_witness :
  (exists s',
      observing fresh = Some s' /\
      read_with_errors s' = <[0%nat := 1]> (read_with_errors fresh)) /\
  (exists s',
      cycle 1 fresh = Some s' /\
      read_with_errors s' = <[1%nat := 1]> (read_with_errors fresh)).
Proof.
  destruct (read_counts_and_write_clears fresh 0 0) as (Hread & _ & Hscen);
    [reflexivity|reflexivity|].
  split.
  - destruct (Hread eq_refl) as (s' & H' & Hh & _). by exists s'.
  - apply (Hscen 1 fresh (tail (script 0x531)) (tail (tail (script 0x531)))
             (tail (tail (tail (script 0x531)))) 0);
      (reflexivity || (vm_compute; reflexivity)).
Defined.

Lemma write_resets_popcount_witness :
  exists s1,
    observing dirty = Some s1 /\
    Shadow.popcnt 3 (flips_array s1) = Some 0 /\
    (forall (lambda : Z) old,
       (num_flips lambda (generator s1)).1 = 0 ->
       is_read (top s1) = true ->
       p_sram____addr (top s1) = 3 ->
       nth_cell (read_with_errors s1) 0 = Some old ->
       exists s2,
         cycle lambda s1 = Some s2 /\
         read_with_errors s2 = <[0%nat := incr old]> (read_with_errors s1)).
Proof. apply (write_resets_popcount dirty 40); reflexivity. Defined.

Lemma errors_injected_is_sum_of_draws_witness :
  let total := sum_upto (drawn_in 1 (start 0x1353531 toy_reset)) 6 in
  exists s h,
    simulate 0x1353531 toy_reset "6" "1" = Some s /\
    main 0x1353531 toy_reset ["sim"; "6"; "1"]
    = Some (Outcome 0
              (report_lines (req_valid_cycles s) (req_fire_cycles s)
                 (rsp_ready_cycles s) (rsp_fire_cycles s) (errors_injected s)
                 h)
              (top s)) /\
    errors_injected s = wrap total /\
    (total < modulus -> errors_injected s = total).
Proof.
  exact (errors_injected_is_sum_of_draws toy_ok scripted_ok
           0x1353531 toy_reset "sim" "6" "1" [] eq_refl).
Defined.

Lemma fire_counters_bounded_witness :
  exists rv rf pr pf ei h top',
    main 0x1353531 toy_reset ["sim"; "6"; "1"]
    = Some (Outcome 0 (report_lines rv rf pr pf ei h) top') /\
    rf <= rv /\ pf <= pr.
Proof.
  exact (proj2 (fire_counters_bounded toy_ok scripted_ok
                  0x1353531 toy_reset "sim" "6" "1" []) eq_refl).
Defined.

(** On the bench, the run from seed 0 draws no flip in its six cycles. *)
Lemma bench_quiet_run (k : nat) :
  (k < 6)%nat -> drawn_in 1 (start 0 toy_reset) k = 0.
Proof.
  intros Hk. do 6 (destruct k as [|k]; [vm_compute; reflexivity|]). lia.
Qed.

(** C7, as stated, fails: with [lambda = 0] line 73 builds the Poisson
    distribution against its precondition, and the run has no defined
    outcome, so no [errors_injected] of 0 and no histogram. *)
Lemma lambda_zero_run_is_undefined :
  positive (strtod "0") = false /\
  main 0x1353531 toy_reset ["sim"; "6"; "0"] = None.
Proof. split; reflexivity. Qed.

Lemma quiet_run_counts_reads_witness :
  exists s rv rf pr pf h top',
    simulate 0 toy_reset "6" "1" = Some s /\
    errors_injected s = 0 /\
    nth_cell (read_with_errors s) 0
    = Some (reads_observed 1 (start 0 toy_reset) 6) /\
    main 0 toy_reset ["sim"; "6"; "1"]
    = Some (Outcome 0
              (report_lines rv rf pr pf 0
                 (reads_observed 1 (start 0 toy_reset) 6 :: h))
              top').
Proof.
  apply (quiet_run_counts_reads toy_ok scripted_ok
           0 toy_reset "sim" "6" "1" []); [reflexivity|].
  exact bench_quiet_run.
Defined.

Lemma zero_cycles_report_witness :
  main 7 toy_reset ["sim"; "0"; "1"]
  = Some (Outcome 0
            [ line "req_valid_cycles: " 0; line "req_fire_cycles: " 0;
              line "rsp_ready_cycles: " 0; line "rsp_fire_cycles: " 0;
              line "errors_injected: " 0;
              line "read_with_errors[0] = " 0;
              line "read_with_errors[1] = " 0;
              line "read_with_errors[2] = " 0;
              line "read_with_errors[3] = " 0;
              line "read_with_errors[4] = " 0 ]
            (step (p_clk_set false (step (p_clk_set false toy_reset))))).
Proof.
  apply (zero_cycles_report (D := toy_design) (L := scripted) 7 toy_reset "sim" "0" "1" []);
    [change (4 <= 8 <= 64); lia | reflexivity | reflexivity].
Defined.

Lemma usage_error_witness :
  main 7 toy_reset ["sim"] = Some (Outcome 1 [] toy_reset).
Proof. apply (usage_error (D := toy_design) (L := scripted) 7 toy_reset ["sim"]). simpl. lia. Defined.

(** C10, as stated, fails: with two arguments without a numeral,
    [argv[2]] reads as a mean of zero, line 73 builds the Poisson
    distribution against its precondition, and the run has no defined
    outcome: no report and no exit status 0. *)
Lemma unparsable_lambda_run_is_undefined :
  Libc.no_numeral "many" = true /\ Libc.no_numeral "few" = true /\
  positive (strtod "few") = false /\
  main 7 toy_reset ["sim"; "many"; "few"] = None.
Proof. repeat split; reflexivity. Qed.

Lemma unparsable_arguments_run_witness :
  (forall o, main 7 toy_reset ["sim"; "many"; "2"] = Some o -> status o = 0) /\
  (positive (strtod "2") = true ->
   (exists rv rf pr pf ei h top',
       main 7 toy_reset ["sim"; "many"; "2"]
       = Some (Outcome 0 (report_lines rv rf pr pf ei h) top') /\
       length h = 5%nat) /\
   (Libc.no_numeral "many" = true ->
    Libc.strtoull "many" = 0 /\
    main 7 toy_reset ["sim"; "many"; "2"]
    = Some (Outcome 0 (report_lines 0 0 0 0 0 [0; 0; 0; 0; 0])
              (step (p_clk_set false (step (p_clk_set false toy_reset))))))) /\
  (positive (strtod "2") = false ->
   main 7 toy_reset ["sim"; "many"; "2"] = None).
Proof.
  exact (unparsable_arguments_run toy_ok scripted_ok
           7 toy_reset "sim" "many" "2" []).
Defined.

End BenchFacts.

Example dump_of_flipped :
  dump_mem flipped
  = Some [ "      memory       flip        real   " +:+ String (ascii_of_N 10) EmptyString;
           dump_line 0 (7, 0, 7); dump_line 1 (1, 1, 0); dump_line 2 (0, 0, 0);
           dump_line 3 (32, 32, 0); dump_line 4 (0, 0, 0);
           dump_line 5 (0, 0, 0); dump_line 6 (0, 0, 0);
           dump_line 7 (0, 0, 0) ].
Proof. vm_compute. reflexivity. Qed.

Example dump_line_3 :
  dump_line 3 (32, 32, 0)
  = "03: 0000000020  0000000020  0000000000" +:+ String (ascii_of_N 10) EmptyString.
Proof. vm_compute. reflexivity. Qed.

Example hex_wide : hex 2 4095 = "fff"%string.
Proof. vm_compute. reflexivity. Qed.

(** ** Further facts on the shadow model *)

Section ShadowAlgebra.
Import Size Shadow.
Implicit Types fa : list Z.

Lemma flip_None cell bit fa :
  ~ (0 <= cell < Z.of_nat (length fa) /\ 0 <= bit < 64) ->
  flip cell bit fa = None.
Proof.
  intros Hout. destruct (flip cell bit fa) as [fa'|] eqn:Hf; [|done].
  apply flip_inv in Hf as (v & Hv & Hb & _).
  apply nth_cell_Some in Hv as [Hc _]. tauto.
Qed.

Lemma flip_in_range cell bit fa :
  0 <= cell < Z.of_nat (length fa) -> 0 <= bit < 64 ->
  exists v, nth_cell fa cell = Some v /\
            flip cell bit fa
            = Some (<[Z.to_nat cell := Z.lxor v (2 ^ bit)]> fa).
Proof.
  intros Hc Hb. destruct (nth_cell_in_range fa cell Hc) as [v Hv].
  exists v. split; [done|]. by apply flip_Some.
Qed.

(** X8: two injections reach the same shadow in either order, and one of the
    orders is undefined exactly when the other is. *)
Theorem flips_commute c1 b1 c2 b2 fa :
  flip c1 b1 fa ≫= flip c2 b2 = flip c2 b2 fa ≫= flip c1 b1.
Proof.
  destruct (decide (0 <= c1 < Z.of_nat (length fa) /\ 0 <= b1 < 64))
    as [[Hc1 Hb1]|Hout1];
    destruct (decide (0 <= c2 < Z.of_nat (length fa) /\ 0 <= b2 < 64))
    as [[Hc2 Hb2]|Hout2].
  - destruct (flip_in_range c1 b1 fa Hc1 Hb1) as (v1 & Hv1 & ->).
    destruct (flip_in_range c2 b2 fa Hc2 Hb2) as (v2 & Hv2 & ->).
    cbn [mbind option_bind].
    destruct (Z.eq_dec c1 c2) as [->|Hne].
    + assert (v2 = v1) as -> by congruence.
      rewrite (flip_Some c2 b2 _ (Z.lxor v1 (2 ^ b1)))
        by (done || by apply nth_cell_insert).
      rewrite (flip_Some c2 b1 _ (Z.lxor v1 (2 ^ b2)))
        by (done || by apply nth_cell_insert).
      rewrite !list_insert_insert_eq.
      assert (Z.lxor (Z.lxor v1 (2 ^ b1)) (2 ^ b2)
              = Z.lxor (Z.lxor v1 (2 ^ b2)) (2 ^ b1)) as ->; [|done].
      rewrite !Z.lxor_assoc. f_equal. apply Z.lxor_comm.
    + rewrite (flip_Some c2 b2 _ v2)
        by (done || by rewrite nth_cell_insert_ne by lia).
      rewrite (flip_Some c1 b1 _ v1)
        by (done || by rewrite nth_cell_insert_ne by lia).
      f_equal. apply list_insert_insert_ne. lia.
  - rewrite (flip_None c2 b2 fa Hout2).
    destruct (flip c1 b1 fa) as [fa1|] eqn:Hf1; [|done].
    cbn [mbind option_bind]. apply flip_None.
    apply flip_inv in Hf1 as (v & _ & _ & ->). by rewrite length_insert.
  - rewrite (flip_None c1 b1 fa Hout1).
    destruct (flip c2 b2 fa) as [fa2|] eqn:Hf2; [|done].
    cbn [mbind option_bind]. symmetry. apply flip_None.
    apply flip_inv in Hf2 as (v & _ & _ & ->). by rewrite length_insert.
  - by rewrite (flip_None c1 b1 fa Hout1), (flip_None c2 b2 fa Hout2).
Qed.

Lemma hits_cons_same c b ops : hits c b ((c, b) :: ops) = S (hits c b ops).
Proof. unfold hits. by rewrite filter_cons_True. Qed.

Lemma hits_cons_other c0 b0 c b ops :
  (c0, b0) <> (c, b) -> hits c b ((c0, b0) :: ops) = hits c b ops.
Proof. intros Hne. unfold hits. by rewrite filter_cons_False. Qed.

(** X9: after any injections, a shadow bit differs from what it was exactly
    when its position was hit an odd number of times. *)
Theorem shadow_bit_is_parity ops c b fa fa' :
  0 <= c -> flip_all ops fa = Some fa' ->
  bit_at c b fa' = xorb (Nat.odd (hits c b ops)) <$> bit_at c b fa.
Proof.
  intros Hc. revert fa. induction ops as [|[c0 b0] ops IH]; intros fa Hrun.
  - simpl in Hrun. injection Hrun as <-.
    change (hits c b []) with O. by destruct (bit_at c b fa).
  - simpl in Hrun. destruct (flip c0 b0 fa) as [fa1|] eqn:Hf; [|done].
    cbn [mbind option_bind] in Hrun. rewrite (IH fa1 Hrun).
    destruct (decide ((c0, b0) = (c, b))) as [[= -> ->]|Hne].
    + rewrite hits_cons_same, (bit_at_flip_same _ _ _ _ Hf).
      rewrite Nat.odd_succ, <- Nat.negb_odd.
      by destruct (bit_at c b fa) as [[]|], (Nat.odd (hits c b ops)).
    + rewrite (hits_cons_other _ _ _ _ _ Hne).
      by rewrite (bit_at_flip_other _ _ _ _ _ _ Hne Hc Hf).
Qed.

Lemma shadow_bit_is_parity_witness :
  bit_at 3 5 [0; 0; 0; 32; 0]
  = xorb (Nat.odd (hits 3 5 [(3, 5); (1, 0); (3, 5); (3, 5)]))
      <$> bit_at 3 5 [0; 0; 0; 0; 0].
Proof.
  apply (shadow_bit_is_parity [(3, 5); (1, 0); (3, 5); (3, 5)] 3 5
           [0; 0; 0; 0; 0] [0; 1; 0; 32; 0]); [lia|reflexivity].
Defined.

End ShadowAlgebra.

(** ** What the phases leave alone *)

Section Frames.
Context `{D : Design} `{L : Libstd}.
Import Size.
Implicit Types s : sim.

(** The SRAM phase touches neither the design nor the generator, and
    keeps the length of the histogram. *)
Lemma sram_frame s s' :
  sram s = Some s' ->
  top s' = top s /\ generator s' = generator s /\
  length (read_with_errors s') = length (read_with_errors s).
Proof.
  unfold sram. intros Hs.
  destruct (p_sram____clk__en (top s)), (p_sram____write__en (top s));
    cbn [andb negb mbind option_bind] in Hs.
  - destruct (Shadow.clear _ _) as [fa|]; [|done].
    cbn [mbind option_bind] in Hs. by injection Hs as <-.
  - destruct (Shadow.popcnt _ _) as [p|]; [|done].
    cbn [mbind option_bind] in Hs.
    destruct (nth_cell (read_with_errors s) p) as [old|] eqn:Hold; [|done].
    cbn [mbind option_bind] in Hs.
    rewrite (set_cell_Some _ _ _ old Hold) in Hs.
    cbn [mbind option_bind] in Hs. injection Hs as <-.
    cbn [top generator read_with_errors set_read_with_errors].
    by rewrite length_insert.
  - by injection Hs as <-.
  - by injection Hs as <-.
Qed.

Lemma observing_frame s s' :
  observing s = Some s' ->
  top s' = clk (top s) /\ generator s' = generator s /\
  length (read_with_errors s') = length (read_with_errors s).
Proof.
  unfold observing. intros Ho.
  destruct (sram (handshakes s)) as [s1|] eqn:H1; [|done].
  cbn [mbind option_bind] in Ho. injection Ho as <-.
  destruct (sram_frame _ _ H1) as (Ht & Hg & Hl).
  destruct (handshakes_frame s) as (Ht' & Hg' & _ & _ & Hh').
  cbn [top generator read_with_errors set_top].
  by rewrite Ht, Hg, Hl, Ht', Hg', Hh'.
Qed.

Lemma inject_one_frame s s' :
  inject_one s = Some s' ->
  generator s' = draw_position (generator s) /\
  read_with_errors s' = read_with_errors s.
Proof.
  unfold inject_one, draw_position. intros Hi.
  destruct (memory_cell (generator s)) as [cell g1]. cbn [snd].
  destruct (memory_bit g1) as [bit g2]. cbn [snd].
  destruct (Shadow.flip cell bit (flips_array s)) as [fa|]; [|done].
  cbn [mbind option_bind] in Hi.
  destruct ((cell <? num_memory_cells) && (bit <? num_memory_bits));
    [|done].
  by injection Hi as <-.
Qed.

Lemma inject_frame flips s s' :
  inject flips s = Some s' ->
  generator s' = Nat.iter flips draw_position (generator s) /\
  read_with_errors s' = read_with_errors s.
Proof.
  revert s. induction flips as [|k IH]; intros s Hi.
  - simpl in Hi. by injection Hi as <-.
  - simpl in Hi. destruct (inject_one s) as [s1|] eqn:H1; [|done].
    cbn [mbind option_bind] in Hi.
    destruct (inject_one_frame _ _ H1) as [Hg1 Hh1].
    destruct (IH s1 Hi) as [Hg Hh].
    rewrite Hg, Hh, Hg1, Hh1. split; [|done].
    by rewrite Nat.iter_succ_r.
Qed.

(** Over a cycle the generator advances by the draws of the cycle
    alone, and the histogram keeps its length. *)
Lemma cycle_frame lambda s s' :
  cycle lambda s = Some s' ->
  generator s' = generator_after_cycle lambda (generator s) /\
  length (read_with_errors s') = length (read_with_errors s).
Proof.
  unfold cycle, injecting, generator_after_cycle. intros Hc.
  destruct (num_flips lambda (generator s)) as [flips g].
  destruct (inject (Z.to_nat flips) (set_generator g s)) as [s1|] eqn:H1;
    [|done].
  cbn [mbind option_bind] in Hc.
  destruct (inject_frame _ _ _ H1) as [Hg1 Hh1].
  destruct (observing_frame _ _ Hc) as (_ & Hg & Hl).
  by rewrite Hg, Hl, Hg1, Hh1.
Qed.

Lemma loop_histogram_length lambda k s s' :
  loop lambda k s = Some s' ->
  length (read_with_errors s') = length (read_with_errors s).
Proof.
  revert s. induction k as [|k IH]; intros s Hl.
  - simpl in Hl. by injection Hl as <-.
  - simpl in Hl. destruct (cycle lambda s) as [s1|] eqn:H1; [|done].
    cbn [mbind option_bind] in Hl.
    destruct (cycle_frame _ _ _ H1) as [_ Hlen].
    by rewrite (IH s1 Hl), Hlen.
Qed.

Lemma report_short s :
  (length (read_with_errors s) < 5)%nat -> report s = None.
Proof.
  intros Hlen. unfold report.
  destruct (read_with_errors s) as [|x0 [|x1 [|x2 [|x3 [|x4 h]]]]];
    simpl in Hlen; try lia; reflexivity.
Qed.

Lemma simulate_short_histogram seed t a1 a2 s :
  0 <= memory_p_mem_bits < 4 ->
  simulate seed t a1 a2 = Some s -> report s = None.
Proof.
  intros Hbits. unfold simulate.
  destruct (positive (strtod a2)); [|done].
  destruct (loop (strtod a2) (Z.to_nat (Libc.strtoull a1)) (start seed t))
    as [s0|] eqn:Hs; [|done].
  cbn [mbind option_bind]. intros [= <-]. apply report_short.
  cbn [read_with_errors set_top].
  rewrite (loop_histogram_length _ _ _ _ Hs).
  cbn [read_with_errors start]. rewrite length_replicate.
  unfold num_memory_bits. rewrite wrap_small; rewrite ?modulus_eq; lia.
Qed.

(** X7: on a design whose cells are narrower than 4 bits the histogram has
    fewer than the five entries the report prints: with two arguments
    given, no run ends in a report, whatever the arguments, since line 191
    reads [read_with_errors] beyond its end; it is the report that is
    undefined on every state the loop can end in. *)
Theorem narrow_cells_overrun_report seed t argv :
  0 <= memory_p_mem_bits < 4 -> (3 <= length argv)%nat ->
  main seed t argv = None /\
  forall a1 a2 s, simulate seed t a1 a2 = Some s -> report s = None.
Proof.
  intros Hbits Hargs. split.
  - unfold main.
    destruct (Z.ltb_spec (Z.of_nat (length argv)) 3) as [Hlt|_]; [lia|].
    destruct (argv !! 1%nat) as [a1|]; [|done].
    destruct (argv !! 2%nat) as [a2|]; [|done].
    cbn [mbind option_bind].
    destruct (simulate seed t a1 a2) as [s|] eqn:Hs; [|done].
    cbn [mbind option_bind].
    by rewrite (simulate_short_histogram seed t a1 a2 s Hbits Hs).
  - intros a1 a2 s. by apply simulate_short_histogram.
Qed.

End Frames.

(** ** Further facts on whole runs *)

Section RunFacts.
Context `{D : Design} `{L : Libstd}.
Context (HD : DesignOk) (HL : LibstdOk).
Import Size.
Implicit Types s : sim.

(** X1: under the contracts of the design and of the distributions a run
    never leaves its arrays: after any number of cycles the loop is
    defined, the two arrays have the sizes they were declared with, and
    every shadow entry fits the width of a cell, so that its popcount is an
    index of the histogram. *)
Theorem run_stays_within_arrays seed t lambda (k : nat) :
  exists s,
    loop lambda k (start seed t) = Some s /\
    Z.of_nat (length (flips_array s)) = num_memory_cells /\
    Z.of_nat (length (read_with_errors s)) = num_memory_bits + 1 /\
    (forall i v,
        nth_cell (flips_array s) i = Some v ->
        0 <= v < 2 ^ num_memory_bits /\
        0 <= popcount v <= num_memory_bits /\
        is_Some (nth_cell (read_with_errors s) (popcount v))).
Proof.
  destruct (loop_total HD HL lambda k (start seed t)) as (s & Hs & Hok);
    [by apply start_ok|].
  exists s. split; [exact Hs|].
  destruct Hok as [Hlen Hrange Hhist _]. split; [exact Hlen|].
  split; [exact Hhist|]. intros i v Hv.
  pose proof (bits_range HD) as Hb. fold num_memory_bits in Hb.
  assert (0 <= v < 2 ^ num_memory_bits) as Hvr.
  { apply nth_cell_Some in Hv as [_ Hv].
    by apply (Forall_lookup_1 _ _ _ _ Hrange Hv). }
  pose proof (popcount_range v num_memory_bits Hvr) as Hp.
  split; [exact Hvr|]. split; [lia|]. apply nth_cell_in_range. lia.
Qed.

Lemma handshake_invariant lambda seed t (n k : nat) :
  Z.of_nat n < modulus -> (k <= n)%nat ->
  exists s, loop lambda k (start seed t) = Some s /\ sim_ok s /\
            handshake_ok (Z.of_nat k) s.
Proof.
  intros Hn. revert k. apply (loop_invariant HD HL);
    [by apply start_ok|by split|].
  intros k s s' Hk Hs Hok Hh Hc.
  destruct (cycle_spec HD HL lambda s Hok)
    as (s1 & s2 & _ & _ & Hc2 & _ & _ & _ & Hc1 & Hc').
  rewrite Hc in Hc2. injection Hc2 as <-.
  apply (handshake_ok_counts _ (handshakes s1)); [exact Hc'|].
  replace (Z.of_nat (S k)) with (Z.of_nat k + 1) by lia.
  apply handshakes_counts; [|lia].
  by apply (handshake_ok_counts _ s).
Qed.

(** X2: no handshake counter exceeds the number of cycles run: in a run
    with a mean that the Poisson distribution accepts, the four counters
    reported lie between 0 and [total_cycles], so none of them has
    wrapped. *)
Theorem handshake_counters_at_most_cycles seed t prog a1 a2 rest :
  positive (strtod a2) = true ->
  exists rv rf pr pf ei h top',
    main seed t (prog :: a1 :: a2 :: rest)
    = Some (Outcome 0 (report_lines rv rf pr pf ei h) top') /\
    0 <= rv <= Libc.strtoull a1 /\ 0 <= rf <= Libc.strtoull a1 /\
    0 <= pr <= Libc.strtoull a1 /\ 0 <= pf <= Libc.strtoull a1.
Proof.
  intros Hpos. pose proof (strtoull_range a1) as Hn.
  destruct (handshake_invariant (strtod a2) seed t
              (Z.to_nat (Libc.strtoull a1)) (Z.to_nat (Libc.strtoull a1)))
    as (s & Hs & Hok & [H1 H2 H3 H4]); [lia|lia|].
  destruct (main_spec HD seed t prog a1 a2 rest s Hpos Hs Hok) as [_ Hmain].
  eexists _, _, _, _, _, _, _. split; [exact Hmain|]. lia.
Qed.

End RunFacts.

(** ** The histogram, the generator and the design over a run *)

Section Tallies.
Context `{D : Design} `{L : Libstd}.
Context (HD : DesignOk) (HL : LibstdOk).
Import Size.
Implicit Types s : sim.

Lemma histogram_total_insert (h : list Z) (i : nat) x y :
  h !! i = Some x ->
  histogram_total (<[i := y]> h) = histogram_total h - x + y.
Proof.
  revert i. induction h as [|z h IH]; intros [|i] Hi; simplify_eq/=.
  - unfold histogram_total. simpl. lia.
  - unfold histogram_total in *. simpl. rewrite (IH i Hi). lia.
Qed.

Lemma histogram_total_entry (h : list Z) (i : nat) x :
  Forall (fun v => 0 <= v) h -> h !! i = Some x ->
  0 <= x <= histogram_total h.
Proof.
  intros Hnn. revert i. induction Hnn as [|z h Hz Hnn IH]; intros [|i] Hi;
    simplify_eq/=; unfold histogram_total in *; simpl.
  - assert (0 <= foldr Z.add 0 h); [|lia].
    clear IH. induction Hnn; simpl; lia.
  - specialize (IH i Hi). lia.
Qed.

Lemma read_in_cycle lambda s0 k s s1 :
  loop lambda k s0 = Some s -> injecting lambda s = Some s1 ->
  read_in lambda s0 k = is_read (top s1).
Proof.
  intros Hs Hi. unfold read_in. rewrite Hs. cbn [mbind option_bind].
  by rewrite Hi.
Qed.

(** X3: every sampled read is classified once: when a run with a mean
    that the Poisson distribution accepts ends, the entries of the
    histogram add up to the number of cycles that sampled a read, and each
    entry lies between 0 and that number. *)
Theorem histogram_total_is_reads seed t a1 a2 :
  positive (strtod a2) = true ->
  let lambda := strtod a2 in
  let n := Z.to_nat (Libc.strtoull a1) in
  exists s,
    simulate seed t a1 a2 = Some s /\
    histogram_total (read_with_errors s)
    = reads_observed lambda (start seed t) n /\
    Forall (fun v => 0 <= v <= reads_observed lambda (start seed t) n)
      (read_with_errors s).
Proof.
  intros Hpos lambda n. pose proof (strtoull_range a1) as Hn.
  assert (exists s,
             loop lambda n (start seed t) = Some s /\ sim_ok s /\
             histogram_total (read_with_errors s)
             = reads_observed lambda (start seed t) n /\
             Forall (fun v => 0 <= v) (read_with_errors s) /\
             0 <= reads_observed lambda (start seed t) n <= Z.of_nat n)
    as (s & Hs & Hok & Htot & Hnn & _).
  { apply (loop_invariant HD HL lambda
             (fun k s =>
                histogram_total (read_with_errors s)
                = reads_observed lambda (start seed t) k /\
                Forall (fun v => 0 <= v) (read_with_errors s) /\
                0 <= reads_observed lambda (start seed t) k <= Z.of_nat k)
             (start seed t) n); [by apply start_ok| | |done].
    { cbn [start read_with_errors]. split; [|split; [|done]].
      - unfold reads_observed. cbn [sum_upto].
        generalize (Z.to_nat (wrap (num_memory_bits + 1))).
        intros m. induction m as [|m IH]; [done|].
        unfold histogram_total in *. simpl. by rewrite IH.
      - by apply Forall_replicate. }
    intros k s s' Hk Hs Hok (Htot & Hnn & Hr) Hc.
    destruct (injecting_spec HD HL lambda s Hok)
      as (s1 & Hi & Hok1 & _ & Hh1 & _).
    assert (observing s1 = Some s') as Ho.
    { unfold cycle in Hc. by rewrite Hi in Hc. }
    unfold reads_observed in *. cbn [sum_upto].
    rewrite (read_in_cycle lambda _ k s s1 Hs Hi).
    destruct (shadow_at_addr HD s1 Hok1) as (v & Hv & _ & [old Hold]).
    destruct (read_or_write_or_idle (top s1)) as [[Hr' _]|[[Hr' Hw]|[Hr' Hw]]];
      rewrite Hr'.
    - destruct (observing_read s1 (popcount v) old Hr') as (s2 & H2 & Hh & _);
        [by apply popcnt_Some|exact Hold|].
      rewrite Ho in H2. injection H2 as <-.
      apply nth_cell_Some in Hold as [_ Hold]. rewrite Hh1 in Hold.
      pose proof (histogram_total_entry _ _ _ Hnn Hold) as Hentry.
      unfold n in Hk. rewrite Hh, Hh1, incr_small by lia.
      rewrite (histogram_total_insert _ _ old) by exact Hold.
      split; [lia|]. split; [|lia]. apply Forall_insert; [exact Hnn|lia].
    - destruct (observing_write s1 v Hw Hv) as (s2 & H2 & _ & Hh & _).
      rewrite Ho in H2. injection H2 as <-.
      rewrite Hh, Hh1. split; [lia|]. split; [exact Hnn|lia].
    - destruct (observing_idle s1 Hr' Hw) as (s2 & H2 & _ & Hh).
      rewrite Ho in H2. injection H2 as <-.
      rewrite Hh, Hh1. split; [lia|]. split; [exact Hnn|lia]. }
  destruct (main_spec HD seed t "" a1 a2 [] s Hpos Hs Hok) as [Hsim _].
  eexists. split; [exact Hsim|]. cbn [read_with_errors set_top].
  split; [exact Htot|]. apply Forall_forall. intros x Hx.
  apply list_elem_of_lookup in Hx as [i Hi].
  pose proof (histogram_total_entry _ _ _ Hnn Hi). lia.
Qed.

(** X4: the draws do not depend on the design: after any number of cycles
    the generator is where the draws of those cycles alone take it from
    the seed, so two runs from the same seed draw the same flip counts
    whatever their designs do. *)
Theorem generator_independent_of_design seed t t' lambda (k : nat) :
  exists s s',
    loop lambda k (start seed t) = Some s /\
    loop lambda k (start seed t') = Some s' /\
    generator s
    = Nat.iter k (generator_after_cycle lambda) (mt19937_64 (wrap seed)) /\
    generator s' = generator s /\
    drawn_in lambda (start seed t') k = drawn_in lambda (start seed t) k.
Proof.
  assert (forall t0, exists s,
             loop lambda k (start seed t0) = Some s /\
             generator s
             = Nat.iter k (generator_after_cycle lambda)
                 (mt19937_64 (wrap seed))) as Hgen.
  { intros t0.
    destruct (loop_invariant HD HL lambda
                (fun k s =>
                   generator s
                   = Nat.iter k (generator_after_cycle lambda)
                       (mt19937_64 (wrap seed)))
                (start seed t0) k) with (k := k) as (s & Hs & _ & Hg);
      [by apply start_ok|done| |done|by exists s].
    intros j s s' _ _ _ Hg Hc.
    destruct (cycle_frame lambda s s' Hc) as [Hg' _].
    cbn [Nat.iter nat_rect]. by rewrite Hg', Hg. }
  destruct (Hgen t) as (s & Hs & Hg). destruct (Hgen t') as (s' & Hs' & Hg').
  exists s, s'. split; [exact Hs|]. split; [exact Hs'|].
  split; [exact Hg|]. split; [congruence|].
  unfold drawn_in. rewrite Hs, Hs'. by rewrite Hg', Hg.
Qed.

(** X5: a run in which no cycle draws a flip drives the design as a bare
    clock loop: the design it leaves is the design as constructed after
    the settling half-cycle, [total_cycles] calls of [clk] and the trailing
    half-cycle; the harness writes nothing else to it. *)
Theorem quiet_run_only_clocks seed t prog a1 a2 rest :
  let lambda := strtod a2 in
  let n := Z.to_nat (Libc.strtoull a1) in
  positive lambda = true ->
  (forall k, (k < n)%nat -> drawn_in lambda (start seed t) k = 0) ->
  exists out,
    main seed t (prog :: a1 :: a2 :: rest)
    = Some (Outcome 0 out
              (step (p_clk_set false
                       (Nat.iter n clk (step (p_clk_set false t)))))).
Proof.
  intros lambda n Hpos Hquiet.
  destruct (loop_invariant HD HL lambda
              (fun k s => top s = Nat.iter k clk (step (p_clk_set false t)))
              (start seed t) n) with (k := n) as (s & Hs & Hok & Ht);
    [by apply start_ok|done| |done|].
  { intros k s s' Hk Hs _ Ht Hc.
    assert ((num_flips lambda (generator s)).1 = 0) as Hzero.
    { rewrite <- (drawn_in_at lambda (start seed t) k s Hs).
      by apply Hquiet. }
    rewrite cycle_no_flip in Hc by exact Hzero.
    destruct (observing_frame _ _ Hc) as (Ht' & _).
    cbn [Nat.iter nat_rect]. rewrite Ht'. cbn [top set_generator].
    by rewrite Ht. }
  destruct (main_spec HD seed t prog a1 a2 rest s Hpos Hs Hok) as [_ Hmain].
  eexists. rewrite Hmain. by rewrite Ht.
Qed.

End Tallies.

(** ** Injection against the memory of the design *)

Section RealValue.
Context `{D : Design} `{L : Libstd}.
Context (HD : DesignOk) (HL : LibstdOk).
Context (valid : p_top -> Prop) (HM : MemoryOk valid).
Import Size.
Implicit Types s : sim.

Lemma inject_one_real s :
  sim_ok s -> valid (top s) ->
  exists s',
    inject_one s = Some s' /\ sim_ok s' /\ valid (top s') /\
    forall c b, 0 <= c -> 0 <= b ->
      real_bit (top s') (flips_array s') c b
      = real_bit (top s) (flips_array s) c b.
Proof.
  intros Hok Hvalid.
  destruct (inject_one_spec HD HL s Hok) as (s' & Hi & Hok' & _).
  exists s'. split; [exact Hi|]. split; [exact Hok'|].
  destruct Hok as [Hlen Hrange Hhist Herr]. unfold inject_one in Hi.
  pose proof (cell_draw_range HD HL (generator s)) as Hc.
  destruct (memory_cell (generator s)) as [cell g1]. simpl in Hc.
  pose proof (bit_draw_range HD HL g1) as Hb.
  destruct (memory_bit g1) as [bit g2]. simpl in Hb.
  pose proof (bits_range HD) as Hbits. fold num_memory_bits in Hbits.
  destruct (Shadow.flip cell bit (flips_array s)) as [fa|] eqn:Hf; [|done].
  cbn [mbind option_bind] in Hi.
  destruct ((cell <? num_memory_cells) && (bit <? num_memory_bits));
    [|done].
  injection Hi as <-.
  cbn [top flips_array set_errors_injected set_top set_flips_array
         set_generator].
  split; [by apply (valid_set_bit _ HM)|]. intros c b Hc0 Hb0.
  unfold real_bit. rewrite (bit_set_bit _ HM) by (done || lia).
  destruct (decide (c = cell /\ b = bit)) as [[-> ->]|Hne].
  - rewrite (bit_at_flip_same _ _ _ _ Hf).
    apply flip_inv in Hf as (v & Hv & _ & _).
    unfold Shadow.bit_at. rewrite Hv. cbn [fmap option_fmap option_map default].
    by destruct (memory_p_mem_bit (top s) cell bit), (Z.testbit v bit).
  - rewrite (bit_at_flip_other cell bit c b (flips_array s) fa);
      [done| |done|exact Hf].
    intros [= -> ->]. by apply Hne.
Qed.

Lemma inject_real flips s :
  sim_ok s -> valid (top s) ->
  exists s',
    inject flips s = Some s' /\ sim_ok s' /\ valid (top s') /\
    forall c b, 0 <= c -> 0 <= b ->
      real_bit (top s') (flips_array s') c b
      = real_bit (top s) (flips_array s) c b.
Proof.
  revert s. induction flips as [|k IH]; intros s Hok Hvalid.
  - by exists s.
  - destruct (inject_one_real s Hok Hvalid) as (s1 & H1 & Hok1 & Hv1 & Hr1).
    destruct (IH s1 Hok1 Hv1) as (s' & H' & Hok' & Hv' & Hr').
    exists s'. simpl. rewrite H1. cbn [mbind option_bind].
    split; [exact H'|]. split; [exact Hok'|]. split; [exact Hv'|].
    intros c b Hc Hb. by rewrite Hr', Hr1.
Qed.

(** X10: the injections of a cycle flip the memory of the design and the
    shadow together: at every position, the bit of the memory with the
    recorded flip taken out is what it was before the injections. *)
Theorem injection_keeps_real_bits lambda s :
  sim_ok s -> valid (top s) ->
  exists s',
    injecting lambda s = Some s' /\ sim_ok s' /\ valid (top s') /\
    forall c b, 0 <= c -> 0 <= b ->
      real_bit (top s') (flips_array s') c b
      = real_bit (top s) (flips_array s) c b.
Proof.
  intros Hok Hvalid. unfold injecting.
  destruct (num_flips lambda (generator s)) as [flips g].
  apply (inject_real (Z.to_nat flips) (set_generator g s)); [|exact Hvalid].
  by destruct Hok.
Qed.

Lemma value_below_testbit n t i b :
  0 <= b ->
  Z.testbit (value_below n t i) b
  = (b <? Z.of_nat n) && memory_p_mem_bit t i b.
Proof.
  intros Hb. induction n as [|n IH].
  - cbn [value_below]. rewrite Z.bits_0.
    by destruct (Z.ltb_spec b (Z.of_nat 0)); [lia|].
  - cbn [value_below].
    destruct (memory_p_mem_bit t i (Z.of_nat n)) eqn:Hbit.
    + rewrite Z.setbit_eqb, IH by lia.
      destruct (Z.eqb_spec (Z.of_nat n) b) as [<-|Hne].
      * rewrite Hbit. by destruct (Z.ltb_spec (Z.of_nat n) (Z.of_nat (S n)));
          [|lia].
      * destruct (Z.ltb_spec b (Z.of_nat n)), (Z.ltb_spec b (Z.of_nat (S n)));
          (done || lia).
    + rewrite IH.
      destruct (Z.ltb_spec b (Z.of_nat n)), (Z.ltb_spec b (Z.of_nat (S n)));
        try (done || lia).
      assert (b = Z.of_nat n) as -> by lia. by rewrite Hbit.
Qed.

Lemma memory_value_testbit t i b :
  0 <= b ->
  Z.testbit (memory_value t i) b
  = (b <? num_memory_bits) && memory_p_mem_bit t i b.
Proof.
  intros Hb. pose proof (bits_range HD) as Hbits.
  fold num_memory_bits in Hbits. unfold memory_value, wrap, modulus.
  rewrite Z.testbit_mod_pow2, value_below_testbit by lia.
  rewrite Z2Nat.id by lia.
  destruct (Z.ltb_spec b 64), (Z.ltb_spec b num_memory_bits);
    (done || lia).
Qed.

(** The value a line of the dump shows as real is determined by the real
    bits of the cell. *)
Lemma real_value_ext t t' fa fa' i v v' :
  nth_cell fa i = Some v -> nth_cell fa' i = Some v' ->
  0 <= v < 2 ^ num_memory_bits -> 0 <= v' < 2 ^ num_memory_bits ->
  (forall b, 0 <= b -> real_bit t' fa' i b = real_bit t fa i b) ->
  Z.lxor (memory_value t' i) v' = Z.lxor (memory_value t i) v.
Proof.
  intros Hv Hv' Hr Hr' Hreal. apply Z.bits_inj'. intros b Hb.
  rewrite !Z.lxor_spec, !memory_value_testbit by done.
  specialize (Hreal b Hb). unfold real_bit, Shadow.bit_at in Hreal.
  rewrite Hv, Hv' in Hreal. cbn [fmap option_fmap option_map default] in Hreal.
  destruct (Z.ltb_spec b num_memory_bits); [exact Hreal|].
  by rewrite (testbit_above num_memory_bits v),
    (testbit_above num_memory_bits v') by (done || lia).
Qed.

Lemma mapM_related {A B C} (f g : A -> option B) (proj : B -> C) l :
  (forall x, x ∈ l ->
     exists y z, f x = Some y /\ g x = Some z /\ proj y = proj z) ->
  exists k k',
    mapM f l = Some k /\ mapM g l = Some k' /\
    proj <$> k = proj <$> k' /\ length k = length l.
Proof.
  induction l as [|x l IH]; intros Hrel.
  - by exists [], [].
  - destruct (Hrel x) as (y & z & Hf & Hg & Hp); [apply elem_of_cons; auto|].
    destruct IH as (k & k' & Hk & Hk' & Hpk & Hlen).
    { intros x' Hx'. apply Hrel. apply elem_of_cons; auto. }
    exists (y :: k), (z :: k'). cbn [mapM]. rewrite Hf, Hg, Hk, Hk'.
    cbn [mbind option_bind mret option_ret fmap list_fmap length].
    split; [done|]. split; [done|]. split; [|by rewrite Hlen].
    rewrite Hp. f_equal. exact Hpk.
Qed.

(** X11: the dump is defined before and after the injections of a cycle, has
    a row for every cell, and shows the same value as real in every row:
    the injections change the columns of the memory and of the flips, not
    their exclusive or. *)
Theorem dump_real_column_kept lambda s :
  sim_ok s -> valid (top s) ->
  exists s' rows rows',
    injecting lambda s = Some s' /\
    dump_rows s = Some rows /\ dump_rows s' = Some rows' /\
    Z.of_nat (length rows) = num_memory_cells /\
    snd <$> rows' = snd <$> rows /\
    dump_mem s'
    = Some (("      memory       flip        real   "
             +:+ String (ascii_of_N 10) EmptyString)
            :: imap dump_line rows').
Proof.
  intros Hok Hvalid.
  destruct (injection_keeps_real_bits lambda s Hok Hvalid)
    as (s' & Hi & Hok' & _ & Hreal).
  pose proof (depth_range HD) as Hd. fold num_memory_cells in Hd.
  destruct (mapM_related (dump_row s') (dump_row s) snd
              (seqZ 0 num_memory_cells)) as (rows' & rows & H' & H & Hp & Hl).
  { intros i Hin. apply elem_of_seqZ in Hin.
    destruct (nth_cell_in_range (flips_array s) i) as [v Hv];
      [rewrite (flips_array_length _ Hok); lia|].
    destruct (nth_cell_in_range (flips_array s') i) as [v' Hv'];
      [rewrite (flips_array_length _ Hok'); lia|].
    unfold dump_row. rewrite Hv, Hv'. cbn [mbind option_bind].
    eexists _, _. split; [reflexivity|]. split; [reflexivity|].
    cbn [snd]. apply (real_value_ext _ _ (flips_array s) (flips_array s'));
      [exact Hv|exact Hv'| | |].
    - apply nth_cell_Some in Hv as [_ Hv].
      by apply (Forall_lookup_1 _ _ _ _ (flips_array_range _ Hok) Hv).
    - apply nth_cell_Some in Hv' as [_ Hv'].
      by apply (Forall_lookup_1 _ _ _ _ (flips_array_range _ Hok') Hv').
    - intros b Hb. apply Hreal; lia. }
  exists s', rows, rows'. split; [exact Hi|]. split; [exact H|].
  split; [exact H'|]. split.
  - rewrite <- (length_fmap snd rows), <- Hp, length_fmap, Hl, length_seqZ.
    lia.
  - split; [exact Hp|]. unfold dump_mem, dump_rows in *. by rewrite H'.
Qed.

End RealValue.

(** ** Runs without flips never report a corrupted read *)

Section CleanReads.
Context `{D : Design} `{L : Libstd}.
Context (HD : DesignOk) (HL : LibstdOk).
Import Size.
Implicit Types s : sim.

(** A cycle without a flip on a clean shadow changes no entry of the
    histogram other than entry 0. *)
Lemma quiet_cycle_upper_entries lambda s :
  sim_ok s ->
  (num_flips lambda (generator s)).1 = 0 ->
  flips_array s = Shadow.init num_memory_cells ->
  exists s',
    cycle lambda s = Some s' /\
    flips_array s' = Shadow.init num_memory_cells /\
    forall i, 1 <= i ->
      nth_cell (read_with_errors s') i = nth_cell (read_with_errors s) i.
Proof.
  intros Hok H0 Hclean.
  destruct (cycle_spec HD HL lambda s Hok)
    as (_ & s' & _ & _ & Hc & _ & _ & _).
  exists s'. split; [exact Hc|]. rewrite cycle_no_flip in Hc by exact H0.
  set (s1 := set_generator (num_flips lambda (generator s)).2 s) in *.
  assert (nth_cell (flips_array s1) (p_sram____addr (top s1)) = Some 0)
    as Hv.
  { cbn [s1 flips_array top set_generator]. rewrite Hclean.
    by apply init_at_addr. }
  assert (is_Some (nth_cell (read_with_errors s1) 0)) as [old Hold].
  { apply nth_cell_in_range. cbn [s1 read_with_errors set_generator].
    rewrite (read_with_errors_length _ Hok).
    pose proof (bits_range HD). unfold num_memory_bits. lia. }
  destruct (read_or_write_or_idle (top s1)) as [[Hr _]|[[Hr Hw]|[Hr Hw]]].
  - destruct (observing_read s1 0 old Hr) as (s2 & H2 & Hh & Hf & _);
      [by rewrite (popcnt_Some _ _ 0 Hv)|exact Hold|].
    rewrite Hc in H2. injection H2 as <-.
    rewrite Hf, Hh. split; [exact Hclean|]. intros i Hi.
    by rewrite nth_cell_insert_ne by lia.
  - destruct (observing_write s1 0 Hw Hv) as (s2 & H2 & Hf & Hh & _).
    rewrite Hc in H2. injection H2 as <-.
    rewrite Hf, Hh. split; [|done].
    cbn [s1 flips_array top set_generator]. rewrite Hclean.
    apply list_insert_id. pose proof (init_at_addr HD (top s)) as Hi.
    by apply nth_cell_Some in Hi as [_ Hi].
  - destruct (observing_idle s1 Hr Hw) as (s2 & H2 & Hf & Hh).
    rewrite Hc in H2. injection H2 as <-.
    by rewrite Hf, Hh.
Qed.

(** X6: a run in which no cycle draws a flip ends with a clean shadow
    and has classified no read as corrupted: every histogram entry above
    entry 0 is still 0. *)
Theorem quiet_run_has_clean_reads seed t a1 a2 :
  let lambda := strtod a2 in
  let n := Z.to_nat (Libc.strtoull a1) in
  positive lambda = true ->
  (forall k, (k < n)%nat -> drawn_in lambda (start seed t) k = 0) ->
  exists s,
    simulate seed t a1 a2 = Some s /\
    flips_array s = Shadow.init num_memory_cells /\
    forall i, 1 <= i <= num_memory_bits ->
      nth_cell (read_with_errors s) i = Some 0.
Proof.
  intros lambda n Hpos Hquiet.
  destruct (loop_invariant HD HL lambda
              (fun k s =>
                 flips_array s = Shadow.init num_memory_cells /\
                 forall i, 1 <= i <= num_memory_bits ->
                   nth_cell (read_with_errors s) i = Some 0)
              (start seed t) n)
    with (k := n)
    as (s & Hs & Hok & Hclean & Hupper);
    [by apply start_ok| | |done|].
  { split; [done|]. intros i Hi. cbn [start read_with_errors].
    apply nth_cell_replicate. pose proof (bits_range HD).
    unfold num_memory_bits in *. rewrite wrap_small; rewrite ?modulus_eq; lia. }
  { intros k s s' Hk Hs Hok [Hclean Hupper] Hc.
    assert ((num_flips lambda (generator s)).1 = 0) as Hzero.
    { rewrite <- (drawn_in_at lambda (start seed t) k s Hs).
      by apply Hquiet. }
    destruct (quiet_cycle_upper_entries lambda s Hok Hzero Hclean)
      as (s2 & Hc2 & Hclean2 & Hsame).
    rewrite Hc in Hc2. injection Hc2 as <-.
    split; [exact Hclean2|]. intros i Hi.
    rewrite Hsame by lia. by apply Hupper. }
  destruct (main_spec HD seed t "" a1 a2 [] s Hpos Hs Hok) as [Hsim _].
  eexists. split; [exact Hsim|]. by split.
Qed.

End CleanReads.

(** ** The further theorems at work on the bench *)

Section BenchRuns.
Import Size Bench.

Lemma toy_memory_ok : MemoryOk (D := toy_design) toy_valid.
Proof.
  split.
  - intros t cell bit v Hlen. unfold toy_valid in *.
    cbn [memory_p_mem_set_bit toy_design toy_set_bit toy_mem].
    by rewrite length_alter.
  - intros t cell bit v c b Hlen Hcell Hbit Hc Hb. unfold toy_valid in Hlen.
    change (@memory_p_mem_depth toy_design) with 8 in Hcell.
    cbn [memory_p_mem_set_bit memory_p_mem_bit toy_design toy_set_bit
           toy_mem].
    destruct (Z.eq_dec c cell) as [->|Hne].
    + rewrite list_lookup_alter_eq.
      destruct (lookup_lt_is_Some_2 (toy_mem t) (Z.to_nat cell)) as [w Hw];
        [lia|].
      rewrite Hw. cbn [fmap option_fmap option_map default]. unfold id.
      destruct (Z.eq_dec b bit) as [->|Hnb].
      * rewrite decide_True by done.
        destruct v; cbv beta iota;
          [rewrite Z.setbit_eqb by lia|rewrite Z.clearbit_eqb];
          rewrite Z.eqb_refl; [done|apply andb_false_r].
      * rewrite decide_False by tauto.
        destruct v; cbv beta iota;
          [rewrite Z.setbit_eqb by lia|rewrite Z.clearbit_eqb];
          destruct (Z.eqb_spec bit b); try lia; simpl;
          by rewrite ?andb_true_r.
    + rewrite decide_False by tauto.
      by rewrite list_lookup_alter_ne by lia.
Qed.

Lemma flipped_ok : sim_ok flipped.
Proof.
  split; [reflexivity| |reflexivity|by vm_compute].
  cbn [flips_array flipped]. change num_memory_bits with 8.
  repeat constructor; lia.
Qed.

Lemma run_stays_within_arrays_witness :
  exists s,
    loop 1 6
      (start 0x1353531 toy_reset) = Some s /\
    Z.of_nat (length (flips_array s)) = 8 /\
    Z.of_nat (length (read_with_errors s)) = 8 + 1 /\
    (forall i v,
        nth_cell (flips_array s) i = Some v ->
        0 <= v < 2 ^ 8 /\
        0 <= popcount v <= 8 /\
        is_Some (nth_cell (read_with_errors s) (popcount v))).
Proof.
  exact (run_stays_within_arrays toy_ok scripted_ok
           0x1353531 toy_reset 1 6%nat).
Defined.

Lemma handshake_counters_at_most_cycles_witness :
  exists rv rf pr pf ei h top',
    main
      0x1353531 toy_reset ["sim"; "6"; "1"]
    = Some (Outcome 0 (report_lines rv rf pr pf ei h) top') /\
    0 <= rv <= Libc.strtoull "6" /\ 0 <= rf <= Libc.strtoull "6" /\
    0 <= pr <= Libc.strtoull "6" /\ 0 <= pf <= Libc.strtoull "6".
Proof.
  exact (handshake_counters_at_most_cycles toy_ok scripted_ok
           0x1353531 toy_reset "sim" "6" "1" [] eq_refl).
Defined.

Lemma histogram_total_is_reads_witness :
  exists s,
    simulate 0x1353531 toy_reset "6" "1" = Some s /\
    histogram_total (read_with_errors s)
    = reads_observed 1 (start 0x1353531 toy_reset) 6 /\
    Forall (fun v => 0 <= v <= reads_observed 1 (start 0x1353531 toy_reset) 6)
      (read_with_errors s).
Proof.
  exact (histogram_total_is_reads toy_ok scripted_ok
           0x1353531 toy_reset "6" "1" eq_refl).
Defined.

Lemma generator_independent_of_design_witness :
  exists s s',
    loop 1 4 (start 0x1353531 toy_reset) = Some s /\
    loop 1 4 (start 0x1353531 (Toy true 5 [1; 2; 3; 4; 5; 6; 7; 8]))
    = Some s' /\
    generator s
    = Nat.iter 4 (generator_after_cycle 1) (mt19937_64 (wrap 0x1353531)) /\
    generator s' = generator s /\
    drawn_in 1 (start 0x1353531 (Toy true 5 [1; 2; 3; 4; 5; 6; 7; 8])) 4
    = drawn_in 1 (start 0x1353531 toy_reset) 4.
Proof.
  exact (generator_independent_of_design toy_ok scripted_ok 0x1353531
           toy_reset (Toy true 5 [1; 2; 3; 4; 5; 6; 7; 8]) 1 4%nat).
Defined.

Lemma quiet_run_only_clocks_witness :
  exists out,
    main 0 toy_reset ["sim"; "6"; "1"]
    = Some (Outcome 0 out
              (step (p_clk_set false
                       (Nat.iter 6 clk (step (p_clk_set false toy_reset)))))).
Proof.
  apply (quiet_run_only_clocks toy_ok scripted_ok
           0 toy_reset "sim" "6" "1" []); [reflexivity|].
  exact bench_quiet_run.
Defined.

Lemma quiet_run_has_clean_reads_witness :
  exists s,
    simulate 0 toy_reset "6" "1" = Some s /\
    flips_array s = Shadow.init num_memory_cells /\
    forall i, 1 <= i <= num_memory_bits ->
      nth_cell (read_with_errors s) i = Some 0.
Proof.
  apply (quiet_run_has_clean_reads toy_ok scripted_ok
           0 toy_reset "6" "1"); [reflexivity|].
  exact bench_quiet_run.
Defined.

Lemma narrow_cells_overrun_report_witness :
  (main (D := narrow_design) (L := scripted) 7 toy_reset ["sim"; "3"; "1"]
   = None /\
   forall a1 a2 s,
     simulate (D := narrow_design) (L := scripted) 7 toy_reset a1 a2
     = Some s ->
     report s = None) /\
  read_with_errors
    <$> simulate (D := narrow_design) (L := scripted) 7 toy_reset "3" "1"
  = Some [2; 0; 0].
Proof.
  split.
  - apply (narrow_cells_overrun_report (D := narrow_design) (L := scripted)
             7 toy_reset ["sim"; "3"; "1"]);
      [change (0 <= 2 < 4); lia | simpl; lia].
  - vm_compute. reflexivity.
Defined.

Lemma injection_keeps_real_bits_witness :
  exists s',
    injecting 1 flipped = Some s' /\ sim_ok s' /\ toy_valid (top s') /\
    forall c b, 0 <= c -> 0 <= b ->
      real_bit (top s') (flips_array s') c b
      = real_bit (top flipped) (flips_array flipped) c b.
Proof.
  apply (injection_keeps_real_bits toy_ok scripted_ok toy_valid
           toy_memory_ok 1 flipped); [exact flipped_ok | reflexivity].
Defined.

Lemma dump_real_column_kept_witness :
  exists s' rows rows',
    injecting 1 flipped = Some s' /\
    dump_rows flipped = Some rows /\ dump_rows s' = Some rows' /\
    Z.of_nat (length rows) = 8 /\
    snd <$> rows' = snd <$> rows /\
    dump_mem s'
    = Some (("      memory       flip        real   "
             +:+ String (ascii_of_N 10) EmptyString)
            :: imap dump_line rows').
Proof.
  apply (dump_real_column_kept toy_ok scripted_ok toy_valid
           toy_memory_ok 1 flipped); [exact flipped_ok | reflexivity].
Defined.

End BenchRuns.
